(** * Whatsup (CV2): orientation search of [whatsup.py]

    A shallow embedding of [src/whatsup.py]: the rotation sweep of
    [detect_faces], the cascade and scale sweep of [try_detect], the
    brightest-side heuristic of [detect_brightest_side], and the argument
    checks of the script body.

    numpy arrays are pixel grids with an explicit shape; slicing and
    [cv2.rotate] are exact and are written out.  The OpenCV operations whose
    results come out of floating-point kernels or trained cascades
    ([resize], [GaussianBlur], [mean], [detectMultiScale], ...) are the
    fields of the interface [OpenCV]; they are total functions there.
    Every detector invocation and every [print] is recorded in an event
    log.  A second embedding of [try_detect] and of the script body writes
    out the one exception the script can meet on a decodable picture, the
    [cv2.error] of [cv2.resize] on an empty source or an empty size. *)

From Stdlib Require Import String ZArith QArith Qabs Bool Lia Lqa List.
Import ListNotations.

Local Open Scope string_scope.
Local Open Scope list_scope.
Local Open Scope Z_scope.

(** ** Python values *)

(** [detect_faces] returns either an [int] or the object [False]. *)
Inductive PyVal : Type :=
| PyInt (z : Z)
| PyBool (b : bool).

(** [v is not False]: an identity test, only the object [False] fails it. *)
Definition is_not_False (v : PyVal) : bool :=
  match v with
  | PyBool false => false
  | _ => true
  end.

(** [v == False]: Python's equality, under which [0 == False] holds. *)
Definition py_eq_False (v : PyVal) : bool :=
  match v with
  | PyBool b => negb b
  | PyInt z => z =? 0
  end.

(** [int(v)]. *)
Definition py_int (v : PyVal) : Z :=
  match v with
  | PyInt z => z
  | PyBool b => if b then 1 else 0
  end.

(** [round(n / d)] for integers [n >= 0], [d > 0]: Python 3 rounds the
    quotient to the nearest integer, halves to the even neighbour.  The
    quotients of the script have denominator 1, 2 or 3, where the float
    quotient rounds like the exact one. *)
Definition round_div (n d : Z) : Z :=
  let q := n / d in
  let r := n mod d in
  if 2 * r <? d then q
  else if d <? 2 * r then q + 1
  else if Z.even q then q else q + 1.

(** [int(math.sqrt(n) / d)]: the integer part of the quotient is that of
    the integer square root divided by [d]. *)
Definition int_sqrt_div (n d : Z) : Z := Z.sqrt n / d.

(** [l[a:b]] for bounds [0 <= a], [0 <= b]: clipped to the list, empty when
    [b <= a]. *)
Definition py_slice {A : Type} (a b : Z) (l : list A) : list A :=
  firstn (Z.to_nat b - Z.to_nat a) (skipn (Z.to_nat a) l).

(** Length of [l[a:b]] for a list of length [n]. *)
Definition slice_len (a b : Z) (n : nat) : nat :=
  (Nat.min (Z.to_nat b) n - Nat.min (Z.to_nat a) n)%nat.

(** ** Images: numpy arrays of shape [(rows, cols)] or [(rows, cols, chans)] *)

(** One pixel: its channel values (one value for a single-channel array). *)
Definition Pixel : Type := list Z.

Record Image : Type := mkImage {
  rows : nat;
  cols : nat;
  chans : nat;
  data : list (list Pixel)
}.

(** [image.shape[:2]] *)
Definition shape (image : Image) : Z * Z :=
  (Z.of_nat (rows image), Z.of_nat (cols image)).

(** [image.size]: the number of array elements. *)
Definition size (image : Image) : Z :=
  Z.of_nat (rows image * cols image * chans image).

(** The grid agrees with the shape. *)
Definition wf_image (image : Image) : Prop :=
  length (data image) = rows image /\
  Forall (fun r => length r = cols image) (data image).

Definition wf_imageb (image : Image) : bool :=
  (length (data image) =? rows image)%nat &&
  forallb (fun r => (length r =? cols image)%nat) (data image).

Definition pixel_at (image : Image) (i j : nat) : Pixel :=
  nth j (nth i (data image) []) [].

Definition tabulate {A : Type} (h w : nat) (f : nat -> nat -> A) : list (list A) :=
  map (fun i => map (fun j => f i j) (seq 0 w)) (seq 0 h).

(** [image[r0:r1, c0:c1]] *)
Definition crop (image : Image) (r0 r1 c0 c1 : Z) : Image :=
  {| rows := slice_len r0 r1 (rows image);
     cols := slice_len c0 c1 (cols image);
     chans := chans image;
     data := map (py_slice c0 c1) (py_slice r0 r1 (data image)) |}.

(** [cv2.rotate(image, cv2.ROTATE_90_CLOCKWISE)]: a new array of shape
    [(cols, rows)] with [dst[i][j] = src[rows - 1 - j][i]]. *)
Definition rotate (image : Image) : Image :=
  {| rows := cols image;
     cols := rows image;
     chans := chans image;
     data := tabulate (cols image) (rows image)
               (fun i j => pixel_at image (rows image - 1 - j) i) |}.

(** [k] successive clockwise quarter turns. *)
Fixpoint rotate_n (k : nat) (image : Image) : Image :=
  match k with
  | O => image
  | S k' => rotate_n k' (rotate image)
  end.

(** ** Dictionaries in insertion order *)

Definition dict (V : Type) : Type := list (string * V).

Fixpoint dict_get {V : Type} (d : dict V) (k : string) : option V :=
  match d with
  | [] => None
  | (k', v) :: d' => if String.eqb k k' then Some v else dict_get d' k
  end.

(** [d[k] = v]: an existing key keeps its place, a new key goes last. *)
Fixpoint dict_set {V : Type} (d : dict V) (k : string) (v : V) : dict V :=
  match d with
  | [] => [(k, v)]
  | (k', v') :: d' =>
      if String.eqb k k' then (k', v) :: d' else (k', v') :: dict_set d' k v
  end.

(** ** The OpenCV and operating-system interfaces *)

(** A detection: the bounding box [(x, y, w, h)]. *)
Record Rect : Type := mkRect { rect_x : Z; rect_y : Z; rect_w : Z; rect_h : Z }.

Class OpenCV : Type := {
  (** [cv2.CascadeClassifier] objects *)
  Cascade : Type;
  (** [cv2.data.haarcascades] *)
  haarcascades : string;
  CASCADE_DO_CANNY_PRUNING : Z;
  CASCADE_FIND_BIGGEST_OBJECT : Z;
  BORDER_DEFAULT : Z;
  CascadeClassifier : string -> Cascade;
  (** [cc.detectMultiScale(image, scaleFactor, minNeighbors, flags, minSize, maxSize)] *)
  detectMultiScale : Cascade -> Image -> Q -> Z -> Z -> Z * Z -> Z * Z -> list Rect;
  imread : string -> Image;
  (** [cv2.convertScaleAbs(image, alpha=, beta=)] *)
  convertScaleAbs : Image -> Q -> Q -> Image;
  (** [cv2.cvtColor(image, cv2.COLOR_BGR2GRAY)] *)
  cvtColor_BGR2GRAY : Image -> Image;
  equalizeHist : Image -> Image;
  (** [cv2.resize(image, (w, h), interpolation = cv2.INTER_CUBIC)] *)
  resize_cubic : Image -> Z * Z -> Image;
  (** [cv2.GaussianBlur(image, ksize, sigmaX)] *)
  GaussianBlur : Image -> Z * Z -> Z -> Image;
  (** [cv2.mean(image)]: a 4-tuple of finite floats, here exact rationals *)
  mean : Image -> Q * Q * Q * Q
}.

Class OS : Type := {
  path_isfile : string -> bool;
  path_abspath : string -> string;
  path_join : string -> string -> string;
  path_stem : string -> string;
  path_suffix : string -> string
}.

(** ** Events and the logging monad *)

Inductive Output : Type :=
| OutStr (s : string)
| OutInt (z : Z).

Section Program.

Context {cv : OpenCV} {os : OS}.

(** One invocation of the detector with its arguments. *)
Record DetectCall : Type := mkDetectCall {
  call_cascade : Cascade;
  call_image : Image;
  call_flags : Z;
  call_min_size : Z * Z;
  call_max_size : Z * Z
}.

Inductive Event : Type :=
| EvDetect (c : DetectCall)
| EvPrint (o : Output).

(** A computation returns its value and the events it produced, in order. *)
Definition M (A : Type) : Type := (A * list Event)%type.

Definition ret {A : Type} (a : A) : M A := (a, []).

Definition bind {A B : Type} (m : M A) (k : A -> M B) : M B :=
  let (a, l1) := m in
  let (b, l2) := k a in
  (b, l1 ++ l2).

Notation "x <- m ;; k" := (bind m (fun x => k))
  (at level 61, m at next level, right associativity).
Notation "m ;;; k" := (bind m (fun _ => k))
  (at level 61, right associativity).

Definition print (o : Output) : M unit := (tt, [EvPrint o]).

(** The detector call of [detect_faces], logged. *)
Definition detect (cc : Cascade) (image : Image) (flags : Z)
    (min_size max_size : Z * Z) : M (list Rect) :=
  (detectMultiScale cc image (13 # 10)%Q 6 flags min_size max_size,
   [EvDetect (mkDetectCall cc image flags min_size max_size)]).

(** How a loop body leaves: by [return v], by running off the end of the
    loop, or (in the model only) by exhausting the unrolling budget. *)
Inductive flow : Type :=
| Return (v : PyVal)
| Fallthrough
| OutOfFuel.

(** ** Module constants *)

(** [debug = False]: the blocks guarded by [if debug:] never run and are
    not embedded. *)
Definition debug : bool := false.

Definition DATA_DIRECTORY : string := haarcascades.

Definition CASCADES_TO_USE : list string :=
  [ "haarcascade_profileface.xml"; "haarcascade_fullbody.xml";
    "haarcascade_frontalface_alt.xml"; "haarcascade_frontalface_default.xml" ].

(** ** [detect_faces] *)

Definition rotation_maximum : Z := 4.

(** The [while counter < rotation_maximum] loop. *)
Fixpoint detect_faces_loop (fuel : nat) (counter : Z) (image : Image)
    (cc : Cascade) (flags min_length max_length : Z) : M flow :=
  match fuel with
  | O => ret OutOfFuel
  | S fuel' =>
      if counter <? rotation_maximum then
        faces_detected <-
          detect cc image flags (min_length, min_length) (max_length, max_length) ;;
        if (0 <? Z.of_nat (length faces_detected)) then
          let rotation := counter * 90 in
          ret (Return (PyInt rotation))
        else
          let image := rotate image in
          let counter := counter + 1 in
          detect_faces_loop fuel' counter image cc flags min_length max_length
      else ret Fallthrough
  end.

Definition detect_faces (image : Image) (cc : Cascade)
    (filename extension : string) (biggest : bool) : M (option PyVal) :=
  let counter := 0 in
  (* side = math.sqrt(image.size) *)
  let min_length := int_sqrt_div (size image) 20 in
  let max_length := int_sqrt_div (size image) 2 in
  let flags := CASCADE_DO_CANNY_PRUNING in
  let flags := if biggest then Z.lor flags CASCADE_FIND_BIGGEST_OBJECT else flags in
  r <- detect_faces_loop (S (Z.to_nat rotation_maximum)) counter image cc
         flags min_length max_length ;;
  match r with
  | Return v => ret (Some v)
  | Fallthrough => ret (Some (PyBool false))
  | OutOfFuel => ret None
  end.

(** ** [detect_brightest_side] *)

(** [max(samples, key = samples.get)]: the keys are visited in insertion
    order and the running maximum is replaced only by a strictly greater
    value. *)
Fixpoint max_scan (best : string) (best_value : Q) (rest : dict Q) : string :=
  match rest with
  | [] => best
  | (k, v) :: rest' =>
      if negb (Qle_bool v best_value) then max_scan k v rest'
      else max_scan best best_value rest'
  end.

(** [None] stands for the [ValueError] of [max] on an empty dictionary. *)
Definition max_key (samples : dict Q) : option string :=
  match samples with
  | [] => None
  | (k, v) :: rest => Some (max_scan k v rest)
  end.

Definition rotation_map : dict Z :=
  [ ("top", 0); ("left", 90); ("bottom", 180); ("right", 270) ].

(** The four slices, inserted in the order of the source. *)
Definition chunks_of (image : Image) : dict Image :=
  let ratio := 3 in
  let boundary := ratio - 1 in
  let '(image_h, image_w) := shape image in
  let chunks := [] in
  let chunks := dict_set chunks "top"
    (crop image 0 (round_div image_h ratio) 0 image_w) in
  let chunks := dict_set chunks "left"
    (crop image 0 image_h 0 (round_div image_w ratio)) in
  let chunks := dict_set chunks "bottom"
    (crop image (round_div (boundary * image_h) ratio) image_h 0 image_w) in
  let chunks := dict_set chunks "right"
    (crop image 0 image_h (round_div (boundary * image_w) ratio) image_w) in
  chunks.

(** One entry of [samples]: resize to 5x5, blur with a 5x5 kernel, first
    component of the mean. *)
Definition sample_of (chunk : Image) : Q :=
  let resize := (5, 5) in
  let blur_kernel := (5, 5) in
  let '(m0, _, _, _) :=
    mean (GaussianBlur (resize_cubic chunk resize) blur_kernel BORDER_DEFAULT) in
  m0.

(** The [for position in chunks] loop filling [samples]. *)
Definition samples_of (chunks : dict Image) : dict Q :=
  fold_left
    (fun samples '(position, chunk) => dict_set samples position (sample_of chunk))
    chunks [].

(** [None] stands for an exception ([ValueError], [KeyError]). *)
Definition detect_brightest_side (image : Image)
    (filename extension : string) : option Z :=
  let chunks := chunks_of image in
  let samples := samples_of chunks in
  match max_key samples with
  | None => None
  | Some max_side => dict_get rotation_map max_side
  end.

(** ** [try_detect] *)

(** The image the cascades are run on: read, contrast-scaled, converted to
    grayscale, equalized; each step rebinds [image]. *)
Definition load_image (filename_full : string) : Image :=
  let image_path := path_abspath filename_full in
  let image := imread image_path in
  let contrast := (125 # 100)%Q in
  let brightness := 0%Q in
  let image := convertScaleAbs image contrast brightness in
  let image := cvtColor_BGR2GRAY image in
  let image := equalizeHist image in
  image.

(** The [while counter >= count_minimum] loop over the sizes. *)
Fixpoint sizes_loop (fuel : nat) (counter count_minimum : Z) (image : Image)
    (cc : Cascade) (filename extension : string) (biggest : bool) : M flow :=
  match fuel with
  | O => ret OutOfFuel
  | S fuel' =>
      if count_minimum <=? counter then
        let '(image_h, image_w) := shape image in
        let resize_h := round_div image_h counter in
        let resize_w := round_div image_w counter in
        let image_resized := resize_cubic image (resize_w, resize_h) in
        results <- detect_faces image_resized cc filename extension biggest ;;
        match results with
        | None => ret OutOfFuel
        | Some results =>
            if is_not_False results then ret (Return results)
            else
              let counter := counter - 1 in
              sizes_loop fuel' counter count_minimum image cc
                filename extension biggest
        end
      else ret Fallthrough
  end.

(** The [for THIS_CASCADE in CASCADES_TO_USE] loop. *)
Fixpoint cascades_loop (cascades : list string) (image : Image)
    (filename extension : string) (biggest : bool) : M flow :=
  match cascades with
  | [] => ret Fallthrough
  | THIS_CASCADE :: cascades' =>
      let counter := 2 in
      let count_minimum := 1 in
      let cc := CascadeClassifier (path_join DATA_DIRECTORY THIS_CASCADE) in
      r <- sizes_loop (S (Z.to_nat (counter - count_minimum + 1)))
             counter count_minimum image cc filename extension biggest ;;
      match r with
      | Fallthrough => cascades_loop cascades' image filename extension biggest
      | _ => ret r
      end
  end.

(** [argv] is [sys.argv]; [None] stands for an exception or an exhausted
    unrolling budget. *)
Definition try_detect (argv : list string) (biggest : bool) : M (option PyVal) :=
  let filename_full := last argv "" in
  let filename := path_stem filename_full in
  let extension := path_suffix filename_full in
  let image := load_image filename_full in
  r <- cascades_loop CASCADES_TO_USE image filename extension biggest ;;
  match r with
  | Return v => ret (Some v)
  | Fallthrough =>
      ret (option_map PyInt (detect_brightest_side image filename extension))
  | OutOfFuel => ret None
  end.

(** ** The script body *)

(** The value is the exit status: [sys.exit(-1)] on the two checks, 0 on
    normal completion, 1 for an uncaught exception. *)
Definition main (argv : list string) : M Z :=
  if negb (length argv =? 2)%nat then
    print (OutStr "USAGE: whatsup filename") ;;;
    ret (-1)
  else if negb (path_isfile (last argv "")) then
    print (OutStr ("File '" ++ last argv "" ++ "' not found.")%string) ;;;
    ret (-1)
  else
    r <- try_detect argv true ;;
    match r with
    | None => ret 1
    | Some v =>
        let rotation := py_int v in
        print (OutInt rotation) ;;;
        ret 0
    end.

(** ** Vocabulary of the statements *)

(** The flags [detect_faces] passes to the detector. *)
Definition detect_flags (biggest : bool) : Z :=
  if biggest then Z.lor CASCADE_DO_CANNY_PRUNING CASCADE_FIND_BIGGEST_OBJECT
  else CASCADE_DO_CANNY_PRUNING.

(** The detector call [detect_faces image cc] makes at rotation offset [j]:
    the image turned [j] times, the size bounds of the image as given. *)
Definition attempt (cc : Cascade) (image : Image) (biggest : bool) (j : nat)
    : DetectCall :=
  let min_length := int_sqrt_div (size image) 20 in
  let max_length := int_sqrt_div (size image) 2 in
  mkDetectCall cc (rotate_n j image) (detect_flags biggest)
    (min_length, min_length) (max_length, max_length).

(** The detector returns at least one detection on the call [c]. *)
Definition fires (c : DetectCall) : bool :=
  0 <? Z.of_nat (length (detectMultiScale (call_cascade c) (call_image c)
                          (13 # 10)%Q 6 (call_flags c)
                          (call_min_size c) (call_max_size c))).

(** The detector events of a log. *)
Definition detect_calls (log : list Event) : list DetectCall :=
  flat_map (fun e => match e with EvDetect c => [c] | EvPrint _ => [] end) log.

(** The rotation sweep in the words of the specification: offsets
    0, 1, 2, 3 in order, the first one where the detector fires. *)
Definition rotation_search_spec (cc : Cascade) (image : Image) (biggest : bool)
    : option nat :=
  find (fun j => fires (attempt cc image biggest j)) (seq 0 4).

(** The events of the attempts at offsets [0 .. n-1]. *)
Definition attempts (cc : Cascade) (image : Image) (biggest : bool) (n : nat)
    : list Event :=
  map (fun i => EvDetect (attempt cc image biggest i)) (seq 0 n).

(** The profile priority and the scale attempts in the words of the
    specification: profile-face, full-body, frontal-face-alt,
    frontal-face-default; half resolution, then full resolution. *)
Definition profile_priority_spec : list string :=
  [ "haarcascade_profileface.xml"; "haarcascade_fullbody.xml";
    "haarcascade_frontalface_alt.xml"; "haarcascade_frontalface_default.xml" ].

Definition scale_attempts_spec : list Z := [2; 1].

(** All (profile, scale) candidates in priority order. *)
Definition candidates_spec : list (string * Z) :=
  flat_map (fun p => map (pair p) scale_attempts_spec) profile_priority_spec.

(** The image handed to the rotation sweep at scale counter [s]:
    [new_h = round(h / s)], [new_w = round(w / s)]. *)
Definition scaled (image : Image) (s : Z) : Image :=
  resize_cubic image
    (round_div (Z.of_nat (cols image)) s, round_div (Z.of_nat (rows image)) s).

Definition candidate_cascade (c : string * Z) : Cascade :=
  CascadeClassifier (path_join DATA_DIRECTORY (fst c)).

(** The outcome of the rotation sweep for one candidate. *)
Definition candidate_search (image : Image) (biggest : bool) (c : string * Z)
    : option nat :=
  rotation_search_spec (candidate_cascade c) (scaled image (snd c)) biggest.

(** The detector events of the first [n] rotation attempts of a candidate. *)
Definition candidate_attempts (image : Image) (biggest : bool) (n : nat)
    (c : string * Z) : list Event :=
  attempts (candidate_cascade c) (scaled image (snd c)) biggest n.

(** First result wins: candidates are searched in order, the first one
    whose rotation sweep reports a result ends the search. *)
Fixpoint sequencer_spec (image : Image) (biggest : bool)
    (cands : list (string * Z)) : option nat * list Event :=
  match cands with
  | [] => (None, [])
  | c :: rest =>
      match candidate_search image biggest c with
      | Some j => (Some j, candidate_attempts image biggest (S j) c)
      | None =>
          let (r, log) := sequencer_spec image biggest rest in
          (r, candidate_attempts image biggest 4 c ++ log)
      end
  end.

Definition flow_of_search (r : option nat * list Event) : M (flow) :=
  match r with
  | (Some j, log) => (Return (PyInt (Z.of_nat j * 90)), log)
  | (None, log) => (Fallthrough, log)
  end.

(** No cascade, scale and rotation yields a detection. *)
Definition no_detection (image : Image) (biggest : bool) : Prop :=
  forall (c : string * Z) (j : nat),
    In c candidates_spec -> (j < 4)%nat ->
    fires (attempt (candidate_cascade c) (scaled image (snd c)) biggest j) = false.

End Program.

Arguments M {cv} A.
Arguments flow : clear implicits.

(** ** The bands of the brightest-side heuristic *)

(** The four bands of an image, by the slice bounds of the source. *)
Definition band_top (image : Image) : Image :=
  crop image 0 (round_div (Z.of_nat (rows image)) 3) 0 (Z.of_nat (cols image)).

Definition band_left (image : Image) : Image :=
  crop image 0 (Z.of_nat (rows image)) 0 (round_div (Z.of_nat (cols image)) 3).

Definition band_bottom (image : Image) : Image :=
  crop image (round_div (2 * Z.of_nat (rows image)) 3) (Z.of_nat (rows image))
    0 (Z.of_nat (cols image)).

Definition band_right (image : Image) : Image :=
  crop image 0 (Z.of_nat (rows image))
    (round_div (2 * Z.of_nat (cols image)) 3) (Z.of_nat (cols image)).

(** The bands in the words of the specification, the bounds read as exact
    quotients: row [i] lies in the top band [[0, h/r)] when [i * r < h]. *)
Definition in_top_band_spec (h r i : Z) : bool :=
  (0 <=? i) && (i * r <? h).

(** Row [i] lies in the bottom band [[(r-1)*h/r, h)] when
    [(r-1) * h <= i * r] and [i < h]. *)
Definition in_bottom_band_spec (h r i : Z) : bool :=
  ((r - 1) * h <=? i * r) && (i <? h).

(** * The program with the failures of [cv2.resize]

    [cv2.resize] raises [cv2.error] when its source is empty or when the
    size asked for has a side that is not positive.  The definitions below
    embed [try_detect], [detect_brightest_side] and the script body once
    more with this failure written out; an exception is never caught in
    the source, so it ends the script with status 1 and nothing printed. *)

Inductive Exn : Type :=
| CvError
| ValueError
| KeyError
| BudgetExhausted.

Inductive outcome (A : Type) : Type :=
| Ok (a : A)
| Raised (e : Exn).

Arguments Ok {A} a.
Arguments Raised {A} e.

Section Checked.

Context {cv : OpenCV} {os : OS}.

Notation "x <- m ;; k" := (bind m (fun x => k))
  (at level 61, m at next level, right associativity).
Notation "m ;;; k" := (bind m (fun _ => k))
  (at level 61, right associativity).

(** The source is empty, or the size [(w, h)] asked for is. *)
Definition resize_raises (image : Image) (dsize : Z * Z) : bool :=
  (rows image =? 0)%nat || (cols image =? 0)%nat ||
  (fst dsize <=? 0) || (snd dsize <=? 0).

Definition resize_checked (image : Image) (dsize : Z * Z) : outcome Image :=
  if resize_raises image dsize then Raised CvError
  else Ok (resize_cubic image dsize).

(** One entry of [samples]. *)
Definition sample_of_checked (chunk : Image) : outcome Q :=
  let resize := (5, 5) in
  let blur_kernel := (5, 5) in
  match resize_checked chunk resize with
  | Raised e => Raised e
  | Ok small =>
      let '(m0, _, _, _) := mean (GaussianBlur small blur_kernel BORDER_DEFAULT) in
      Ok m0
  end.

(** The [for position in chunks] loop, left at the first exception. *)
Fixpoint samples_loop_checked (items : dict Image) (samples : dict Q)
    : outcome (dict Q) :=
  match items with
  | [] => Ok samples
  | (position, chunk) :: items' =>
      match sample_of_checked chunk with
      | Raised e => Raised e
      | Ok v => samples_loop_checked items' (dict_set samples position v)
      end
  end.

Definition detect_brightest_side_checked (image : Image)
    (filename extension : string) : outcome Z :=
  let chunks := chunks_of image in
  match samples_loop_checked chunks [] with
  | Raised e => Raised e
  | Ok samples =>
      match max_key samples with
      | None => Raised ValueError
      | Some max_side =>
          match dict_get rotation_map max_side with
          | None => Raised KeyError
          | Some rotation => Ok rotation
          end
      end
  end.

(** The [while counter >= count_minimum] loop over the sizes. *)
Fixpoint sizes_loop_checked (fuel : nat) (counter count_minimum : Z)
    (image : Image) (cc : Cascade) (filename extension : string)
    (biggest : bool) : M (outcome flow) :=
  match fuel with
  | O => ret (Ok OutOfFuel)
  | S fuel' =>
      if count_minimum <=? counter then
        let '(image_h, image_w) := shape image in
        let resize_h := round_div image_h counter in
        let resize_w := round_div image_w counter in
        match resize_checked image (resize_w, resize_h) with
        | Raised e => ret (Raised e)
        | Ok image_resized =>
            results <- detect_faces image_resized cc filename extension biggest ;;
            match results with
            | None => ret (Ok OutOfFuel)
            | Some results =>
                if is_not_False results then ret (Ok (Return results))
                else
                  let counter := counter - 1 in
                  sizes_loop_checked fuel' counter count_minimum image cc
                    filename extension biggest
            end
        end
      else ret (Ok Fallthrough)
  end.

(** The [for THIS_CASCADE in CASCADES_TO_USE] loop. *)
Fixpoint cascades_loop_checked (cascades : list string) (image : Image)
    (filename extension : string) (biggest : bool) : M (outcome flow) :=
  match cascades with
  | [] => ret (Ok Fallthrough)
  | THIS_CASCADE :: cascades' =>
      let counter := 2 in
      let count_minimum := 1 in
      let cc := CascadeClassifier (path_join DATA_DIRECTORY THIS_CASCADE) in
      r <- sizes_loop_checked (S (Z.to_nat (counter - count_minimum + 1)))
             counter count_minimum image cc filename extension biggest ;;
      match r with
      | Ok Fallthrough =>
          cascades_loop_checked cascades' image filename extension biggest
      | _ => ret r
      end
  end.

Definition try_detect_checked (argv : list string) (biggest : bool)
    : M (outcome PyVal) :=
  let filename_full := last argv "" in
  let filename := path_stem filename_full in
  let extension := path_suffix filename_full in
  let image := load_image filename_full in
  r <- cascades_loop_checked CASCADES_TO_USE image filename extension biggest ;;
  match r with
  | Raised e => ret (Raised e)
  | Ok (Return v) => ret (Ok v)
  | Ok Fallthrough =>
      match detect_brightest_side_checked image filename extension with
      | Raised e => ret (Raised e)
      | Ok rotation => ret (Ok (PyInt rotation))
      end
  | Ok OutOfFuel => ret (Raised BudgetExhausted)
  end.

(** The script body; an uncaught exception prints nothing on standard
    output and gives status 1. *)
Definition main_checked (argv : list string) : M Z :=
  if negb (length argv =? 2)%nat then
    print (OutStr "USAGE: whatsup filename") ;;;
    ret (-1)
  else if negb (path_isfile (last argv "")) then
    print (OutStr ("File '" ++ last argv "" ++ "' not found.")%string) ;;;
    ret (-1)
  else
    r <- try_detect_checked argv true ;;
    match r with
    | Raised _ => ret 1
    | Ok v =>
        let rotation := py_int v in
        print (OutInt rotation) ;;;
        ret 0
    end.

End Checked.

(** * A concrete platform for running the model

    Simple exact stand-ins for the OpenCV operations (nearest-neighbour
    resize, no blur, integer luma, histogram equalization by the cumulative
    count), a detector and a file system given as functions.  The general
    theorems hold for every [OpenCV]; this one is used to run the program
    on concrete pictures. *)

Module Standin.

Definition map_values (f : Z -> Z) (image : Image) : Image :=
  {| rows := rows image; cols := cols image; chans := chans image;
     data := map (map (map f)) (data image) |}.

Definition saturate (v : Z) : Z := Z.max 0 (Z.min 255 v).

Definition round_Q (q : Q) : Z := round_div (Qnum q) (Zpos (Qden q)).

Definition scale_abs (image : Image) (alpha beta : Q) : Image :=
  map_values (fun v => saturate (round_Q (Qabs (alpha * inject_Z v + beta)))) image.

Definition luma (p : Pixel) : Pixel :=
  match p with
  | [b; g; r] => [round_div (114 * b + 587 * g + 299 * r) 1000]
  | _ => p
  end.

Definition to_gray (image : Image) : Image :=
  {| rows := rows image; cols := cols image; chans := 1;
     data := map (map luma) (data image) |}.

Definition values (image : Image) : list Z := concat (concat (data image)).

Definition equalize (image : Image) : Image :=
  let vs := values image in
  let cdf v := Z.of_nat (length (filter (fun x => x <=? v) vs)) in
  let total := Z.of_nat (length vs) in
  let lowest := fold_right Z.min 255 vs in
  if total <=? cdf lowest then image
  else map_values
         (fun v => round_div ((cdf v - cdf lowest) * 255) (total - cdf lowest))
         image.

Definition nearest_resize (image : Image) (dsize : Z * Z) : Image :=
  let '(w, h) := dsize in
  {| rows := Z.to_nat h; cols := Z.to_nat w; chans := chans image;
     data := tabulate (Z.to_nat h) (Z.to_nat w)
               (fun i j => pixel_at image
                  (i * rows image / Z.to_nat h) (j * cols image / Z.to_nat w)) |}.

Definition channel_mean (image : Image) (c : nat) : Q :=
  let ps := concat (data image) in
  let total := fold_right Z.add 0 (map (fun p => nth c p 0) ps) in
  Qdiv (inject_Z total) (inject_Z (Z.of_nat (length ps))).

Definition channel_means (image : Image) : Q * Q * Q * Q :=
  (channel_mean image 0, channel_mean image 1,
   channel_mean image 2, channel_mean image 3).

Definition cv (files : string -> Image) (detector : string -> Image -> list Rect)
    : OpenCV :=
  {| Cascade := string;
     haarcascades := "/usr/share/opencv4/haarcascades/";
     CASCADE_DO_CANNY_PRUNING := 1;
     CASCADE_FIND_BIGGEST_OBJECT := 4;
     BORDER_DEFAULT := 4;
     CascadeClassifier := fun path => path;
     detectMultiScale := fun cc image _ _ _ _ _ => detector cc image;
     imread := files;
     convertScaleAbs := scale_abs;
     cvtColor_BGR2GRAY := to_gray;
     equalizeHist := equalize;
     resize_cubic := nearest_resize;
     GaussianBlur := fun image _ _ => image;
     mean := channel_means |}.

Definition os (existing : list string) : OS :=
  {| path_isfile := fun p => existsb (String.eqb p) existing;
     path_abspath := fun p => p;
     path_join := fun a b => (a ++ b)%string;
     path_stem := fun p => p;
     path_suffix := fun _ => "" |}.

(** A detector that never finds anything. *)
Definition blind : string -> Image -> list Rect := fun _ _ => [].

(** A detector that reports a box when the top-left pixel is bright: it
    sees an upright marker only. *)
Definition corner (_ : string) (image : Image) : list Rect :=
  match pixel_at image 0 0 with
  | v :: _ => if 200 <=? v then [mkRect 0 0 1 1] else []
  | [] => []
  end.

Definition gray_image (grid : list (list Z)) : Image :=
  {| rows := length grid; cols := length (hd [] grid); chans := 1;
     data := map (map (fun v => [v])) grid |}.

Definition bgr_image (grid : list (list Pixel)) : Image :=
  {| rows := length grid; cols := length (hd [] grid); chans := 3;
     data := grid |}.

Definition blue : Pixel := [255; 0; 0].
Definition red : Pixel := [0; 0; 255].
Definition black : Pixel := [0; 0; 0].
Definition white : Pixel := [255; 255; 255].

(** Blue on top, black in the middle, red at the bottom. *)
Definition stripes : Image :=
  bgr_image [ [blue; blue; blue]; [black; black; black]; [red; red; red] ].

Definition grey : Pixel := [200; 200; 200].

(** A white marker in the top-left corner of a black picture whose bottom
    row is light. *)
Definition marked : Image :=
  bgr_image [ [white; black; black; black]; [black; black; black; black];
              [black; black; black; black]; [grey; grey; grey; grey] ].

(** A white marker in the bottom-right corner of a black picture: the
    half-size copy misses it, the full-size copy shows it in the top-left
    corner after two quarter turns. *)
Definition cornered : Image :=
  bgr_image [ [black; black; black; black]; [black; black; black; black];
              [black; black; black; black]; [black; black; black; white] ].

(** A single-channel picture with the marker in the top-left corner. *)
Definition dot : Image := gray_image [ [255; 0]; [0; 0] ].

(** Uniform single-channel pictures of 4 and of 5 rows. *)
Definition flat4 : Image :=
  gray_image [ [9; 9; 9]; [9; 9; 9]; [9; 9; 9]; [9; 9; 9] ].
Definition flat5 : Image :=
  gray_image [ [9; 9; 9]; [9; 9; 9]; [9; 9; 9]; [9; 9; 9]; [9; 9; 9] ].

(** The platforms of the concrete runs: every file decodes to [stripes]
    and nothing is detected; every file decodes to [marked], or to
    [cornered], and the marker detector is used. *)
Definition stripes_cv : OpenCV := cv (fun _ => stripes) blind.
Definition marked_cv : OpenCV := cv (fun _ => marked) corner.
Definition cornered_cv : OpenCV := cv (fun _ => cornered) corner.
Definition files : OS := os [ "stripes.png"; "marked.png"; "cornered.png" ].

(** A single-channel picture of 2 rows and 3 columns with the marker in
    the top-left corner. *)
Definition wide : Image := gray_image [ [255; 0; 0]; [0; 0; 0] ].

(** A picture of one white pixel, and one of a single row. *)
Definition pixel : Image := bgr_image [ [white] ].
Definition strip : Image := bgr_image [ [white; black; grey; black] ].

Definition pixel_cv : OpenCV := cv (fun _ => pixel) blind.
Definition strip_cv : OpenCV := cv (fun _ => strip) blind.
Definition tiny_files : OS := os [ "pixel.png"; "strip.png" ].

End Standin.

(** * Proofs *)

(** ** Lists *)

Lemma find_map_pre {A B : Type} (p : B -> bool) (g : A -> B) (l : list A) :
  find p (map g l) = option_map g (find (fun a => p (g a)) l).
Proof.
  induction l as [|a l IH]; simpl; [reflexivity|].
  destruct (p (g a)); [reflexivity | exact IH].
Qed.

Lemma find_seq_first (p : nat -> bool) (n j : nat) :
  find p (seq 0 n) = Some j ->
  (j < n)%nat /\ p j = true /\ forall i, (i < j)%nat -> p i = false.
Proof.
  revert p j. induction n as [|n IH]; intros p j H; [discriminate|].
  change (seq 0 (S n)) with (0%nat :: seq 1 n) in H. simpl in H.
  destruct (p 0%nat) eqn:E0.
  - injection H as <-. repeat split; [lia | exact E0 | intros i Hi; lia].
  - rewrite <- seq_shift, find_map_pre in H.
    destruct (find (fun a => p (S a)) (seq 0 n)) as [j'|] eqn:E; [|discriminate].
    injection H as <-. apply IH in E. destruct E as (Hlt & Hp & Hfirst).
    repeat split; [lia | exact Hp |].
    intros [|i] Hi; [exact E0 | apply Hfirst; lia].
Qed.

Lemma find_seq_none (p : nat -> bool) (n : nat) :
  find p (seq 0 n) = None -> forall i, (i < n)%nat -> p i = false.
Proof.
  intros H i Hi. apply (find_none _ _ H). apply in_seq. lia.
Qed.

(** ** The rotation sweep *)

Section RotationSweep.

Context {cv : OpenCV} {os : OS}.

Variables (cc : Cascade) (flags min_length max_length : Z).

Let call (image : Image) : DetectCall :=
  mkDetectCall cc image flags (min_length, min_length) (max_length, max_length).

(** The loop entered at offset [j] with [n] attempts left. *)
Lemma detect_faces_loop_eq (n : nat) :
  forall (fuel j : nat) (image : Image),
    (j + n = 4)%nat -> (n < fuel)%nat ->
    detect_faces_loop fuel (Z.of_nat j) image cc flags min_length max_length =
    match find (fun i => fires (call (rotate_n i image))) (seq 0 n) with
    | Some i =>
        (Return (PyInt (Z.of_nat (j + i) * 90)),
         map (fun i => EvDetect (call (rotate_n i image))) (seq 0 (S i)))
    | None =>
        (Fallthrough, map (fun i => EvDetect (call (rotate_n i image))) (seq 0 n))
    end.
Proof.
  induction n as [|n IH]; intros fuel j image Hj Hfuel.
  - destruct fuel as [|fuel]; [lia|]. simpl.
    replace (Z.of_nat j <? rotation_maximum) with false; [reflexivity|].
    symmetry. apply Z.ltb_ge. unfold rotation_maximum. lia.
  - destruct fuel as [|fuel]; [lia|].
    change (seq 0 (S n)) with (0%nat :: seq 1 n).
    cbn [detect_faces_loop find].
    replace (Z.of_nat j <? rotation_maximum) with true
      by (symmetry; apply Z.ltb_lt; unfold rotation_maximum; lia).
    unfold detect, bind at 1. cbn [rotate_n].
    change (0 <? Z.of_nat (length (detectMultiScale cc image (13 # 10)%Q 6 flags
              (min_length, min_length) (max_length, max_length))))
      with (fires (call image)).
    destruct (fires (call image)) eqn:Hfire.
    + cbn. rewrite Nat.add_0_r. reflexivity.
    + replace (Z.of_nat j + 1) with (Z.of_nat (S j)) by lia.
      rewrite (IH fuel (S j) (rotate image)) by lia.
      rewrite <- (seq_shift n 0), find_map_pre.
      cbn [rotate_n].
      destruct (find (fun i => fires (call (rotate_n i (rotate image)))) (seq 0 n))
        as [i|]; cbn [option_map].
      * change (seq 0 (S (S i))) with (0%nat :: seq 1 (S i)).
        rewrite <- (seq_shift (S i) 0), map_cons, map_map.
        replace (S j + i)%nat with (j + S i)%nat by lia. reflexivity.
      * rewrite map_cons, map_map. reflexivity.
Qed.

End RotationSweep.

Section DetectFaces.

Context {cv : OpenCV} {os : OS}.

Lemma rotate_n_succ (k : nat) (image : Image) :
  rotate_n (S k) image = rotate (rotate_n k image).
Proof.
  revert image. induction k as [|k IH]; intros image; [reflexivity|].
  change (rotate_n (S (S k)) image) with (rotate_n (S k) (rotate image)).
  rewrite IH. reflexivity.
Qed.

Lemma attempts_length cc image biggest n :
  length (attempts cc image biggest n) = n.
Proof. unfold attempts. rewrite length_map, length_seq. reflexivity. Qed.

Lemma detect_calls_attempts cc image biggest n :
  detect_calls (attempts cc image biggest n) =
  map (attempt cc image biggest) (seq 0 n).
Proof.
  unfold attempts, detect_calls. induction (seq 0 n) as [|i l IH]; simpl;
    [reflexivity | rewrite IH; reflexivity].
Qed.

(** [detect_faces] computes the sweep of the specification and logs one
    detector call per offset tried. *)
Lemma detect_faces_eq image cc filename extension biggest :
  detect_faces image cc filename extension biggest =
  match rotation_search_spec cc image biggest with
  | Some j => (Some (PyInt (Z.of_nat j * 90)), attempts cc image biggest (S j))
  | None => (Some (PyBool false), attempts cc image biggest 4)
  end.
Proof.
  unfold detect_faces, rotation_search_spec, attempts, attempt.
  change (Z.to_nat rotation_maximum) with 4%nat.
  change 0 with (Z.of_nat 0).
  rewrite (detect_faces_loop_eq cc _ _ _ 4 5 0 image) by lia.
  fold (detect_flags biggest).
  destruct (find _ (seq 0 4)) as [j|]; unfold bind, ret; cbn [Nat.add];
    rewrite app_nil_r; reflexivity.
Qed.

End DetectFaces.

(** ** The cascade and scale sweep *)

Section Sequencer.

Context {cv : OpenCV} {os : OS}.

Lemma sizes_loop_eq image cc_name filename extension biggest :
  sizes_loop 3 2 1 image (CascadeClassifier (path_join DATA_DIRECTORY cc_name))
    filename extension biggest =
  flow_of_search (sequencer_spec image biggest [(cc_name, 2); (cc_name, 1)]).
Proof.
  cbn [sizes_loop sequencer_spec shape].
  change (1 <=? 2) with true. change (1 <=? 2 - 1) with true.
  change (1 <=? 2 - 1 - 1) with false. cbv iota.
  unfold candidate_search, candidate_attempts, candidate_cascade, scaled.
  cbn [fst snd]. change (2 - 1) with 1.
  rewrite !detect_faces_eq.
  destruct (rotation_search_spec _ (resize_cubic image (_ 2, _)) biggest) as [j|].
  - unfold bind, ret. cbn [is_not_False flow_of_search].
    rewrite app_nil_r. reflexivity.
  - unfold bind at 1. cbn [is_not_False].
    destruct (rotation_search_spec _ _ biggest) as [j|].
    + unfold bind, ret. cbn [is_not_False flow_of_search].
      rewrite app_nil_r. reflexivity.
    + unfold bind, ret. cbn [is_not_False flow_of_search].
      rewrite !app_nil_r. reflexivity.
Qed.

Lemma sequencer_spec_app image biggest l1 l2 :
  sequencer_spec image biggest (l1 ++ l2) =
  match sequencer_spec image biggest l1 with
  | (Some j, log) => (Some j, log)
  | (None, log) =>
      let (r, log') := sequencer_spec image biggest l2 in (r, log ++ log')
  end.
Proof.
  induction l1 as [|c l1 IH]; cbn [sequencer_spec app].
  - destruct (sequencer_spec image biggest l2); reflexivity.
  - destruct (candidate_search image biggest c); [reflexivity|].
    rewrite IH. destruct (sequencer_spec image biggest l1) as [[j|] log].
    + reflexivity.
    + destruct (sequencer_spec image biggest l2). rewrite app_assoc. reflexivity.
Qed.

Lemma cascades_loop_eq image filename extension biggest (cascades : list string) :
  cascades_loop cascades image filename extension biggest =
  flow_of_search
    (sequencer_spec image biggest
       (flat_map (fun p => map (pair p) scale_attempts_spec) cascades)).
Proof.
  induction cascades as [|p cascades IH]; [reflexivity|].
  cbn [cascades_loop flat_map]. change (Z.to_nat (2 - 1 + 1)) with 2%nat.
  rewrite sizes_loop_eq, sequencer_spec_app. rewrite IH.
  change (map (pair p) scale_attempts_spec) with [(p, 2); (p, 1)].
  destruct (sequencer_spec image biggest [(p, 2); (p, 1)]) as [[j|] log].
  - unfold bind, ret, flow_of_search. rewrite app_nil_r. reflexivity.
  - destruct (sequencer_spec image biggest _) as [[j|] log'];
      unfold bind, flow_of_search; reflexivity.
Qed.

(** [try_detect] in one equation: the first result of the sequencer, or
    the brightest side of the image the cascades were run on. *)
Lemma try_detect_eq (argv : list string) (biggest : bool) :
  try_detect argv biggest =
  let image := load_image (last argv "") in
  match sequencer_spec image biggest candidates_spec with
  | (Some j, log) => (Some (PyInt (Z.of_nat j * 90)), log)
  | (None, log) =>
      (option_map PyInt
         (detect_brightest_side image (path_stem (last argv ""))
            (path_suffix (last argv ""))), log)
  end.
Proof.
  unfold try_detect. rewrite cascades_loop_eq.
  change (flat_map _ CASCADES_TO_USE) with candidates_spec. cbv zeta.
  destruct (sequencer_spec _ biggest candidates_spec) as [[j|] log];
    unfold flow_of_search, bind, ret; rewrite app_nil_r; reflexivity.
Qed.

End Sequencer.

Section SequencerFacts.

Context {cv : OpenCV} {os : OS}.

Variables (image : Image) (biggest : bool).

Lemma sequencer_spec_none (cands : list (string * Z)) :
  (forall c, In c cands -> candidate_search image biggest c = None) ->
  sequencer_spec image biggest cands =
  (None, flat_map (candidate_attempts image biggest 4) cands).
Proof.
  induction cands as [|c cands IH]; intros H; [reflexivity|].
  cbn [sequencer_spec flat_map].
  rewrite (H c (or_introl eq_refl)), IH; [reflexivity|].
  intros c' Hc'. apply H. right. exact Hc'.
Qed.

Lemma sequencer_spec_first (cands : list (string * Z)) :
  forall (n : nat) (c : string * Z) (j : nat),
    nth_error cands n = Some c ->
    candidate_search image biggest c = Some j ->
    (forall m c', (m < n)%nat -> nth_error cands m = Some c' ->
                  candidate_search image biggest c' = None) ->
    sequencer_spec image biggest cands =
    (Some j,
     flat_map (candidate_attempts image biggest 4) (firstn n cands) ++
     candidate_attempts image biggest (S j) c).
Proof.
  induction cands as [|c0 cands IH]; intros n c j Hn Hc Hbefore.
  - destruct n; discriminate.
  - destruct n as [|n].
    + injection Hn as ->. cbn [sequencer_spec firstn flat_map app].
      rewrite Hc. reflexivity.
    + cbn [sequencer_spec firstn flat_map].
      rewrite (Hbefore 0%nat c0) by (reflexivity || lia).
      rewrite (IH n c j Hn Hc).
      * rewrite app_assoc. reflexivity.
      * intros m c' Hm Hc'. apply (Hbefore (S m) c'); [lia | exact Hc'].
Qed.

End SequencerFacts.

Lemma round_div_1 (n : Z) : round_div n 1 = n.
Proof.
  unfold round_div. rewrite Z.mod_1_r, Z.div_1_r. reflexivity.
Qed.

(** C2: [try_detect] walks the candidates (cascade, scale counter) in the
    order profile-face, full-body, frontal-face-alt, frontal-face-default,
    each with scale counter 2 (resize to [round(w/2)] by [round(h/2)]) and
    then 1 (resize to the image's own width and height).  The result of
    the first candidate whose rotation sweep reports one is returned at
    once: the detector has been called on every rotation of the earlier
    candidates, on the rotations of this candidate up to the successful
    one, and on nothing after it. *)
Theorem try_detect_profile_scale_order {cv : OpenCV} {os : OS}
    (argv : list string) (biggest : bool) :
  let image := load_image (last argv "") in
  CASCADES_TO_USE = profile_priority_spec /\
  candidates_spec =
    [ ("haarcascade_profileface.xml", 2); ("haarcascade_profileface.xml", 1);
      ("haarcascade_fullbody.xml", 2); ("haarcascade_fullbody.xml", 1);
      ("haarcascade_frontalface_alt.xml", 2);
      ("haarcascade_frontalface_alt.xml", 1);
      ("haarcascade_frontalface_default.xml", 2);
      ("haarcascade_frontalface_default.xml", 1) ] /\
  scaled image 2 =
    resize_cubic image (round_div (snd (shape image)) 2,
                        round_div (fst (shape image)) 2) /\
  scaled image 1 = resize_cubic image (snd (shape image), fst (shape image)) /\
  (forall (n : nat) (c : string * Z) (j : nat),
     nth_error candidates_spec n = Some c ->
     candidate_search image biggest c = Some j ->
     (forall m c', (m < n)%nat -> nth_error candidates_spec m = Some c' ->
                   candidate_search image biggest c' = None) ->
     try_detect argv biggest =
       (Some (PyInt (Z.of_nat j * 90)),
        flat_map (candidate_attempts image biggest 4) (firstn n candidates_spec)
        ++ candidate_attempts image biggest (S j) c)).
Proof.
  intros image. split; [reflexivity|]. split; [reflexivity|].
  split; [reflexivity|]. split.
  - unfold scaled. rewrite !round_div_1. reflexivity.
  - intros n c j Hn Hc Hbefore. rewrite try_detect_eq. cbv zeta.
    fold image.
    rewrite (sequencer_spec_first image biggest candidates_spec n c j Hn Hc Hbefore).
    reflexivity.
Qed.

(** ** The brightest side *)

Section Brightest.

Context {cv : OpenCV}.

Lemma chunks_of_eq (image : Image) :
  chunks_of image =
  [ ("top", band_top image); ("left", band_left image);
    ("bottom", band_bottom image); ("right", band_right image) ].
Proof. reflexivity. Qed.

Lemma samples_of_chunks_eq (image : Image) :
  samples_of (chunks_of image) =
  [ ("top", sample_of (band_top image)); ("left", sample_of (band_left image));
    ("bottom", sample_of (band_bottom image));
    ("right", sample_of (band_right image)) ].
Proof. reflexivity. Qed.

(** [max_scan] returns the first entry of largest value: every entry
    before it is strictly smaller, every entry after it is no larger. *)
Lemma max_scan_first_max (rest : dict Q) :
  forall (best : string) (best_value : Q),
  exists (l1 : dict Q) (k : string) (v : Q) (l2 : dict Q),
    (best, best_value) :: rest = l1 ++ (k, v) :: l2 /\
    max_scan best best_value rest = k /\
    (forall k' v', In (k', v') l1 -> (v' < v)%Q) /\
    (forall k' v', In (k', v') l2 -> (v' <= v)%Q).
Proof.
  induction rest as [|[k1 v1] rest IH]; intros best bv.
  - exists [], best, bv, []. repeat split; intros k' v' [].
  - cbn [max_scan]. destruct (Qle_bool v1 bv) eqn:E; cbn [negb].
    + apply Qle_bool_iff in E.
      destruct (IH best bv) as (l1 & k & v & l2 & Hsplit & Hk & H1 & H2).
      destruct l1 as [|e l1]; cbn [app] in Hsplit.
      * injection Hsplit as <- <- <-.
        exists [], best, bv, ((k1, v1) :: rest). repeat split; try assumption.
        intros k' v' [Heq|Hin]; [injection Heq as <- <-; exact E|].
        exact (H2 k' v' Hin).
      * injection Hsplit as <- ->.
        exists ((best, bv) :: (k1, v1) :: l1), k, v, l2.
        repeat split; try assumption.
        intros k' v' [Heq|[Heq|Hin]].
        -- apply (H1 k' v'). left. exact Heq.
        -- injection Heq as <- <-.
           apply Qle_lt_trans with bv; [exact E|].
           apply (H1 best bv). left. reflexivity.
        -- apply (H1 k' v'). right. exact Hin.
    + assert (Hlt : (bv < v1)%Q).
      { apply Qnot_le_lt. intros Hle. apply Qle_bool_iff in Hle. congruence. }
      destruct (IH k1 v1) as (l1 & k & v & l2 & Hsplit & Hk & H1 & H2).
      exists ((best, bv) :: l1), k, v, l2. rewrite Hsplit.
      repeat split; try assumption.
      intros k' v' [Heq|Hin]; [|exact (H1 k' v' Hin)].
      injection Heq as <- <-.
      destruct l1 as [|e l1]; cbn [app] in Hsplit.
      * injection Hsplit as <- <- _. exact Hlt.
      * injection Hsplit as <- _.
        apply Qlt_trans with v1; [exact Hlt|].
        apply (H1 k1 v1). left. reflexivity.
Qed.

(** The brightest side is always one of the four table values. *)
Lemma detect_brightest_side_total (image : Image) (filename extension : string) :
  exists r : Z,
    detect_brightest_side image filename extension = Some r /\
    In r [0; 90; 180; 270].
Proof.
  unfold detect_brightest_side. rewrite samples_of_chunks_eq.
  cbn [max_key max_scan].
  repeat match goal with
         | |- context [Qle_bool ?a ?b] => destruct (Qle_bool a b); cbn [negb]
         end;
    cbn; eauto 10.
Qed.

End Brightest.

(** ** Exhaustion and bounds of the search *)

Section SearchBounds.

Context {cv : OpenCV} {os : OS}.

Lemma rotation_search_spec_none cc image biggest :
  (forall j, (j < 4)%nat -> fires (attempt cc image biggest j) = false) ->
  rotation_search_spec cc image biggest = None.
Proof.
  intros H. unfold rotation_search_spec.
  destruct (find _ (seq 0 4)) as [j|] eqn:E; [|reflexivity].
  apply find_seq_first in E. destruct E as (Hlt & Hj & _).
  rewrite (H j Hlt) in Hj. discriminate.
Qed.

Lemma rotation_search_spec_lt cc image biggest j :
  rotation_search_spec cc image biggest = Some j -> (j < 4)%nat.
Proof. intros E. apply find_seq_first in E. tauto. Qed.

Lemma no_detection_search image biggest :
  no_detection image biggest ->
  forall c, In c candidates_spec -> candidate_search image biggest c = None.
Proof.
  intros H c Hc. apply rotation_search_spec_none. intros j Hj. exact (H c j Hc Hj).
Qed.

Lemma detect_calls_app (l1 l2 : list Event) :
  detect_calls (l1 ++ l2) = detect_calls l1 ++ detect_calls l2.
Proof. apply flat_map_app. Qed.

Lemma attempts_no_print cc image biggest n o :
  ~ In (EvPrint o) (attempts cc image biggest n).
Proof.
  unfold attempts. intros H. apply in_map_iff in H.
  destruct H as (i & Hi & _). discriminate.
Qed.

Lemma detect_calls_attempts_length cc image biggest n :
  length (detect_calls (attempts cc image biggest n)) = n.
Proof. rewrite detect_calls_attempts, length_map, length_seq. reflexivity. Qed.


(** Split an equation between pairs without reducing its components. *)
Ltac pair_eq H :=
  let H1 := fresh in
  let H2 := fresh in
  pose proof (f_equal fst H) as H1; pose proof (f_equal snd H) as H2;
  cbn [fst snd] in H1, H2; clear H; subst.

(** Whatever the detector answers, the sequencer reports an offset below
    4 or nothing, logs detector calls only, at least one and at most four
    per candidate. *)
Lemma sequencer_spec_bounds image biggest (cands : list (string * Z)) :
  forall r log,
    sequencer_spec image biggest cands = (r, log) ->
    (forall j, r = Some j -> (j < 4)%nat) /\
    (forall o, ~ In (EvPrint o) log) /\
    (length (detect_calls log) <= length cands * 4)%nat /\
    (cands <> [] -> (1 <= length (detect_calls log))%nat).
Proof.
  induction cands as [|c cands IH]; intros r log H; cbn [sequencer_spec] in H.
  - injection H as <- <-. repeat split; try discriminate; try tauto.
    cbn. lia.
  - destruct (candidate_search image biggest c) as [j|] eqn:E.
    + pair_eq H. apply rotation_search_spec_lt in E.
      unfold candidate_attempts. rewrite detect_calls_attempts_length.
      repeat split.
      * intros j' Hj'. injection Hj' as <-. exact E.
      * intros o. apply attempts_no_print.
      * cbn [length]. lia.
      * lia.
    + destruct (sequencer_spec image biggest cands) as [r' log'] eqn:E'.
      destruct (IH r' log' eq_refl) as (Hr & Hp & Hlen & _).
      pair_eq H.
      rewrite detect_calls_app, length_app.
      unfold candidate_attempts. rewrite detect_calls_attempts_length.
      repeat split.
      * exact Hr.
      * intros o Hin. apply in_app_or in Hin. destruct Hin as [Hin|Hin].
        -- exact (attempts_no_print _ _ _ _ _ Hin).
        -- exact (Hp o Hin).
      * cbn [length]. lia.
      * lia.
Qed.

(** [try_detect] always returns an integer among 0, 90, 180, 270 after at
    least 1 and at most 32 detector calls, and prints nothing. *)
Lemma try_detect_total (argv : list string) (biggest : bool) :
  exists (r : Z) (log : list Event),
    try_detect argv biggest = (Some (PyInt r), log) /\
    In r [0; 90; 180; 270] /\
    (forall o, ~ In (EvPrint o) log) /\
    (1 <= length (detect_calls log) <= 32)%nat.
Proof.
  rewrite try_detect_eq. cbv zeta.
  destruct (sequencer_spec _ biggest candidates_spec) as [r log] eqn:E.
  destruct (sequencer_spec_bounds _ _ _ _ _ E) as (Hr & Hp & Hlen & Hpos).
  change (length candidates_spec * 4)%nat with 32%nat in Hlen.
  assert (Hpos' : (1 <= length (detect_calls log))%nat)
    by (apply Hpos; discriminate).
  destruct r as [j|].
  - exists (Z.of_nat j * 90), log. repeat split; try assumption.
    specialize (Hr j eq_refl).
    destruct j as [|[|[|[|j]]]]; cbn; try tauto. lia.
  - destruct (detect_brightest_side_total (load_image (last argv ""))
                (path_stem (last argv "")) (path_suffix (last argv "")))
      as (r & Hr' & Hin).
    exists r, log. rewrite Hr'. repeat split; assumption.
Qed.

End SearchBounds.

(** * The claims about the whole search *)

(** C3 (amended): when no cascade, scale and rotation yields a detection,
    the value of [try_detect] is the brightest side of the image the
    cascades were run on, that is the picture read from the file after
    contrast scaling, grayscale conversion and histogram equalization,
    neither rotated nor resized. *)
Theorem fallback_uses_detection_image {cv : OpenCV} {os : OS}
    (argv : list string) (biggest : bool) :
  no_detection (load_image (last argv "")) biggest ->
  fst (try_detect argv biggest) =
  option_map PyInt
    (detect_brightest_side
       (equalizeHist
          (cvtColor_BGR2GRAY
             (convertScaleAbs (imread (path_abspath (last argv "")))
                (125 # 100)%Q 0%Q)))
       (path_stem (last argv "")) (path_suffix (last argv ""))).
Proof.
  intros H. rewrite try_detect_eq. cbv zeta.
  rewrite (sequencer_spec_none _ _ _ (no_detection_search _ _ H)).
  reflexivity.
Qed.


(** On the interface whose operations never raise: invoked with one
    argument naming an existing file, the script completes with status 0
    and prints exactly one integer, one of 0, 90, 180, 270. *)
Lemma main_prints_one_rotation {cv : OpenCV} {os : OS} (prog path : string) :
  path_isfile path = true ->
  exists (r : Z) (log : list Event),
    try_detect [prog; path] true = (Some (PyInt r), log) /\
    main [prog; path] = (0, log ++ [EvPrint (OutInt r)]) /\
    (forall o, ~ In (EvPrint o) log) /\
    In r [0; 90; 180; 270].
Proof.
  intros Hfile.
  destruct (try_detect_total [prog; path] true) as (r & log & Heq & Hin & Hp & _).
  exists r, log. repeat split; try assumption.
  unfold main. cbn [length Nat.eqb negb last]. rewrite Hfile. cbn [negb].
  rewrite Heq. unfold bind, print, ret. cbn [py_int].
  rewrite app_nil_r. reflexivity.
Qed.

(** C9: [detect_faces] answers [False] when no rotation gives a detection
    and the integer 0 when the unrotated image does; 0 passes the test
    [results is not False] (it would not pass an equality test), so a
    detection at offset 0 by the first candidate with a result makes
    [try_detect] return 0 without reaching the brightest-side fallback,
    and the script prints 0. *)
Theorem offset_zero_is_a_result {cv : OpenCV} {os : OS}
    (prog path : string) (n : nat) (c : string * Z) :
  let image := load_image path in
  path_isfile path = true ->
  nth_error candidates_spec n = Some c ->
  fires (attempt (candidate_cascade c) (scaled image (snd c)) true 0) = true ->
  (forall m c', (m < n)%nat -> nth_error candidates_spec m = Some c' ->
                candidate_search image true c' = None) ->
  fst (detect_faces (scaled image (snd c)) (candidate_cascade c)
         (path_stem path) (path_suffix path) true) = Some (PyInt 0) /\
  is_not_False (PyInt 0) = true /\
  py_eq_False (PyInt 0) = true /\
  is_not_False (PyBool false) = false /\
  try_detect [prog; path] true =
    (Some (PyInt 0),
     flat_map (candidate_attempts image true 4) (firstn n candidates_spec) ++
     candidate_attempts image true 1 c) /\
  main [prog; path] =
    (0,
     flat_map (candidate_attempts image true 4) (firstn n candidates_spec) ++
     candidate_attempts image true 1 c ++ [EvPrint (OutInt 0)]).
Proof.
  intros image Hfile Hn Hfire Hbefore.
  assert (Hsearch : candidate_search image true c = Some 0%nat).
  { unfold candidate_search, rotation_search_spec.
    change (seq 0 4) with (0%nat :: seq 1 3). cbn [find].
    rewrite Hfire. reflexivity. }
  assert (Htry : try_detect [prog; path] true =
                 (Some (PyInt 0),
                  flat_map (candidate_attempts image true 4)
                    (firstn n candidates_spec) ++
                  candidate_attempts image true 1 c)).
  { rewrite try_detect_eq. cbv zeta. cbn [last]. fold image.
    rewrite (sequencer_spec_first image true candidates_spec n c 0 Hn Hsearch Hbefore).
    reflexivity. }
  split.
  - rewrite detect_faces_eq. unfold candidate_search in Hsearch.
    rewrite Hsearch. reflexivity.
  - repeat split; try exact Htry.
    unfold main. cbn [length Nat.eqb negb last]. rewrite Hfile. cbn [negb].
    rewrite Htry. unfold bind, print, ret. cbn [py_int].
    rewrite app_nil_r, <- app_assoc. reflexivity.
Qed.


(** ** Quarter turns of a pixel grid *)

Section Grid.

Lemma nth_map_default {A B : Type} (f : A -> B) (l : list A) (a : A) (b : B)
    (i : nat) :
  f a = b -> nth i (map f l) b = f (nth i l a).
Proof. intros <-. apply map_nth. Qed.

Lemma tabulate_length {A : Type} (h w : nat) (f : nat -> nat -> A) :
  length (tabulate h w f) = h.
Proof. unfold tabulate. rewrite length_map, length_seq. reflexivity. Qed.

Lemma tabulate_row {A : Type} (h w : nat) (f : nat -> nat -> A) (i : nat) :
  (i < h)%nat ->
  nth i (tabulate h w f) [] = map (fun j => f i j) (seq 0 w).
Proof.
  intros Hi. unfold tabulate.
  rewrite (nth_indep _ [] (map (fun j => f 0%nat j) (seq 0 w)))
    by (rewrite length_map, length_seq; exact Hi).
  rewrite (map_nth (fun i => map (fun j => f i j) (seq 0 w)) (seq 0 h) 0%nat i).
  rewrite seq_nth by exact Hi. reflexivity.
Qed.

Lemma tabulate_nth {A : Type} (h w : nat) (f : nat -> nat -> A) (d : A)
    (i j : nat) :
  (i < h)%nat -> (j < w)%nat -> nth j (nth i (tabulate h w f) []) d = f i j.
Proof.
  intros Hi Hj. rewrite tabulate_row by exact Hi.
  rewrite (nth_indep _ d (f i 0%nat)) by (rewrite length_map, length_seq; exact Hj).
  rewrite (map_nth (fun j => f i j) (seq 0 w) 0%nat j).
  rewrite seq_nth by exact Hj. reflexivity.
Qed.

Lemma tabulate_ext {A : Type} (h w : nat) (f g : nat -> nat -> A) :
  (forall i j, (i < h)%nat -> (j < w)%nat -> f i j = g i j) ->
  tabulate h w f = tabulate h w g.
Proof.
  intros H. unfold tabulate. apply map_ext_in. intros i Hi.
  apply map_ext_in. intros j Hj. apply in_seq in Hi, Hj. apply H; lia.
Qed.

(** A well-formed image is the table of its pixels. *)
Lemma data_tabulate (image : Image) :
  wf_image image ->
  data image = tabulate (rows image) (cols image) (pixel_at image).
Proof.
  intros [Hrows Hcols].
  apply (nth_ext _ _ [] []).
  - rewrite tabulate_length. exact Hrows.
  - intros i Hi. rewrite Hrows in Hi. rewrite tabulate_row by exact Hi.
    assert (Hlen : length (nth i (data image) []) = cols image).
    { rewrite Forall_forall in Hcols. apply Hcols. apply nth_In. lia. }
    apply (@nth_ext Pixel _ _ [] []).
    + rewrite length_map, length_seq. exact Hlen.
    + intros j Hj. rewrite Hlen in Hj.
      rewrite (nth_indep (map (fun j => pixel_at image i j) (seq 0 (cols image)))
                 [] (pixel_at image i 0%nat))
        by (rewrite length_map, length_seq; exact Hj).
      rewrite (map_nth (fun j => pixel_at image i j) (seq 0 (cols image)) 0%nat j).
      rewrite seq_nth by exact Hj. reflexivity.
Qed.

Lemma rotate_pixel_at (image : Image) (i j : nat) :
  (i < cols image)%nat -> (j < rows image)%nat ->
  pixel_at (rotate image) i j = pixel_at image (rows image - 1 - j) i.
Proof.
  intros Hi Hj. unfold pixel_at at 1, rotate. cbn [data].
  exact (tabulate_nth (cols image) (rows image)
           (fun i j => pixel_at image (rows image - 1 - j) i) [] i j Hi Hj).
Qed.

Lemma rows_rotate (image : Image) : rows (rotate image) = cols image.
Proof. reflexivity. Qed.

Lemma cols_rotate (image : Image) : cols (rotate image) = rows image.
Proof. reflexivity. Qed.

Ltac rotate_dims := repeat (rewrite rows_rotate || rewrite cols_rotate).

(** Four quarter turns give the image back. *)
Lemma rotate_four (image : Image) :
  wf_image image -> rotate (rotate (rotate (rotate image))) = image.
Proof.
  intros Hwf.
  transitivity (mkImage (rows image) (cols image) (chans image)
                  (tabulate (rows image) (cols image) (pixel_at image))).
  - unfold rotate at 1. rotate_dims.
    cbn [chans rotate]. f_equal.
    apply tabulate_ext. intros i j Hi Hj.
    rewrite rotate_pixel_at by (rotate_dims; lia). rotate_dims.
    rewrite rotate_pixel_at by (rotate_dims; lia). rotate_dims.
    rewrite rotate_pixel_at by (rotate_dims; lia).
    f_equal; lia.
  - rewrite <- (data_tabulate image Hwf). destruct image; reflexivity.
Qed.

Lemma rotate_n_add (k j : nat) (image : Image) :
  rotate_n j (rotate_n k image) = rotate_n (k + j) image.
Proof.
  revert image. induction k as [|k IH]; intros image; [reflexivity|].
  cbn [rotate_n Nat.add]. apply IH.
Qed.

Lemma rotate_n_four (image : Image) :
  wf_image image -> rotate_n 4 image = image.
Proof. intros Hwf. cbn [rotate_n]. apply rotate_four. exact Hwf. Qed.

Lemma rotate_n_mod (n : nat) (image : Image) :
  wf_image image -> rotate_n (n mod 4) image = rotate_n n image.
Proof.
  intros Hwf. rewrite (Nat.div_mod_eq n 4) at 2.
  generalize (n mod 4)%nat as r. generalize (n / 4)%nat as q.
  induction q as [|q IH]; intros r.
  - reflexivity.
  - replace (4 * S q + r)%nat with (4 + (4 * q + r))%nat by lia.
    rewrite <- rotate_n_add, rotate_n_four by exact Hwf. apply IH.
Qed.

Lemma size_rotate (image : Image) : size (rotate image) = size image.
Proof. unfold size, rotate. cbn [rows cols chans]. f_equal. lia. Qed.

Lemma size_rotate_n (k : nat) (image : Image) :
  size (rotate_n k image) = size image.
Proof.
  revert image. induction k as [|k IH]; intros image; [reflexivity|].
  cbn [rotate_n]. rewrite IH. apply size_rotate.
Qed.

End Grid.

(** C1: for every image and cascade, [detect_faces] calls the detector on
    the image turned clockwise 0, 1, 2, 3 times, in this order.  Each
    attempt looks at the previous image rotated once more by 90 degrees
    clockwise: the shape is transposed and pixel [(r, c)] of the new image
    is pixel [(rows - 1 - c, r)] of the previous one, so the first column
    read from the bottom becomes the first row.  At the first offset [j]
    where the detector returns a detection it stops and returns [j * 90],
    having made [j + 1] calls; when none of the 4 attempts detects
    anything it returns [False] after exactly 4 calls. *)
Theorem detect_faces_rotation_sweep {cv : OpenCV} {os : OS}
    (image : Image) (cc : Cascade) (filename extension : string)
    (biggest : bool) :
  call_image (attempt cc image biggest 0) = image /\
  (forall j,
     let before := call_image (attempt cc image biggest j) in
     let after := call_image (attempt cc image biggest (S j)) in
     after = rotate before /\
     rows after = cols before /\
     cols after = rows before /\
     forall r c, (r < rows after)%nat -> (c < cols after)%nat ->
       pixel_at after r c = pixel_at before (rows before - 1 - c) r) /\
  ((exists j : nat,
      (j < 4)%nat /\
      fires (attempt cc image biggest j) = true /\
      (forall i, (i < j)%nat -> fires (attempt cc image biggest i) = false) /\
      detect_faces image cc filename extension biggest =
        (Some (PyInt (Z.of_nat j * 90)),
         map (fun i => EvDetect (attempt cc image biggest i)) (seq 0 (S j))))
   \/
   ((forall i, (i < 4)%nat -> fires (attempt cc image biggest i) = false) /\
    detect_faces image cc filename extension biggest =
      (Some (PyBool false),
       map (fun i => EvDetect (attempt cc image biggest i)) (seq 0 4)))).
Proof.
  split; [reflexivity|]. split.
  - intros j before after.
    assert (Hturn : after = rotate before).
    { subst before after. unfold attempt. cbn [call_image].
      apply rotate_n_succ. }
    rewrite Hturn. split; [reflexivity|].
    split; [apply rows_rotate|]. split; [apply cols_rotate|].
    intros r c Hr Hc. rewrite rows_rotate in Hr. rewrite cols_rotate in Hc.
    apply rotate_pixel_at; assumption.
  - rewrite detect_faces_eq. unfold rotation_search_spec.
    destruct (find _ (seq 0 4)) as [j|] eqn:E.
    + left. exists j. apply find_seq_first in E.
      destruct E as (Hlt & Hj & Hfirst). auto.
    + right. split; [|reflexivity].
      intros i Hi. exact (find_seq_none _ _ E i Hi).
Qed.

(** ** The sweep on a pre-rotated image *)

Section PreRotation.

Context {cv : OpenCV} {os : OS}.

(** Attempt [j] on the image turned [k] times is attempt [k + j] on the
    image itself: same pixels, same size bounds. *)
Lemma attempt_prerotated cc image biggest (k j : nat) :
  attempt cc (rotate_n k image) biggest j = attempt cc image biggest (k + j).
Proof.
  unfold attempt. rewrite size_rotate_n, rotate_n_add. reflexivity.
Qed.

Lemma attempt_mod cc image biggest (n : nat) :
  wf_image image ->
  attempt cc image biggest (n mod 4) = attempt cc image biggest n.
Proof.
  intros Hwf. unfold attempt. rewrite rotate_n_mod by exact Hwf. reflexivity.
Qed.

Lemma detect_faces_offset image cc filename extension biggest (j : nat) :
  fst (detect_faces image cc filename extension biggest) =
    Some (PyInt (Z.of_nat j * 90)) ->
  rotation_search_spec cc image biggest = Some j.
Proof.
  rewrite detect_faces_eq.
  destruct (rotation_search_spec cc image biggest) as [j'|]; cbn [fst];
    intros H; [|discriminate].
  injection H as H. f_equal. lia.
Qed.

End PreRotation.

(** C6: if [detect_faces], run on the image turned clockwise [k] times,
    finds a detection at offset [j], then the detector fires on the
    original image turned [(j + k) mod 4] times, which is the image the
    successful attempt looked at; and when that is the only orientation
    of the original on which the detector fires, [detect_faces] on the
    original returns [((j + k) mod 4) * 90]. *)
Theorem prerotation_composes_mod_4 {cv : OpenCV} {os : OS}
    (image : Image) (cc : Cascade) (filename extension : string)
    (biggest : bool) (k j : nat) :
  wf_image image ->
  fst (detect_faces (rotate_n k image) cc filename extension biggest) =
    Some (PyInt (Z.of_nat j * 90)) ->
  (j < 4)%nat /\
  rotate_n j (rotate_n k image) = rotate_n ((j + k) mod 4) image /\
  fires (attempt cc image biggest ((j + k) mod 4)) = true /\
  ((forall i, (i < 4)%nat -> i <> ((j + k) mod 4)%nat ->
              fires (attempt cc image biggest i) = false) ->
   fst (detect_faces image cc filename extension biggest) =
     Some (PyInt (Z.of_nat ((j + k) mod 4) * 90))).
Proof.
  intros Hwf H. apply detect_faces_offset in H.
  apply find_seq_first in H. destruct H as (Hlt & Hfire & _).
  rewrite attempt_prerotated in Hfire.
  replace (k + j)%nat with (j + k)%nat in Hfire by lia.
  rewrite <- (attempt_mod cc image biggest (j + k) Hwf) in Hfire.
  split; [exact Hlt|]. split.
  - rewrite rotate_n_add, (rotate_n_mod (j + k) image Hwf). f_equal. lia.
  - split; [exact Hfire|]. intros Honly.
    rewrite detect_faces_eq.
    destruct (rotation_search_spec cc image biggest) as [i|] eqn:E.
    + apply find_seq_first in E. destruct E as (Hi & Hfi & _).
      destruct (Nat.eq_dec i ((j + k) mod 4)) as [->|Hne]; [reflexivity|].
      rewrite (Honly i Hi Hne) in Hfi. discriminate.
    + exfalso. pose proof (find_seq_none _ _ E ((j + k) mod 4)%nat) as Hnone.
      cbv beta in Hnone. rewrite Hfire in Hnone.
      assert ((j + k) mod 4 < 4)%nat by (apply Nat.mod_upper_bound; lia).
      specialize (Hnone H). discriminate.
Qed.

(** ** Slices and the four bands *)

Section Bands.

Lemma py_slice_nil {A : Type} (a b : Z) : py_slice a b (@nil A) = [].
Proof. unfold py_slice. rewrite skipn_nil, firstn_nil. reflexivity. Qed.

Lemma py_slice_nth {A : Type} (a b : Z) (l : list A) (d : A) (i : nat) :
  (i < Z.to_nat b - Z.to_nat a)%nat ->
  nth i (py_slice a b l) d = nth (Z.to_nat a + i) l d.
Proof.
  intros Hi. unfold py_slice. rewrite nth_firstn.
  apply Nat.ltb_lt in Hi. rewrite Hi. apply nth_skipn.
Qed.

(** Pixel [(i, j)] of [image[r0:r1, c0:c1]] is pixel [(r0 + i, c0 + j)] of
    the image. *)
Lemma crop_pixel_at (image : Image) (r0 r1 c0 c1 : Z) (i j : nat) :
  (i < Z.to_nat r1 - Z.to_nat r0)%nat ->
  (j < Z.to_nat c1 - Z.to_nat c0)%nat ->
  pixel_at (crop image r0 r1 c0 c1) i j =
  pixel_at image (Z.to_nat r0 + i) (Z.to_nat c0 + j).
Proof.
  intros Hi Hj. unfold pixel_at, crop. cbn [data].
  rewrite (nth_map_default (py_slice c0 c1) _ [] [] i (py_slice_nil c0 c1)).
  rewrite py_slice_nth by exact Hj.
  rewrite py_slice_nth by exact Hi. reflexivity.
Qed.

Lemma round_div_thirds (n : Z) :
  0 <= n ->
  round_div n 3 = (n + 1) / 3 /\ round_div (2 * n) 3 = (2 * n + 1) / 3.
Proof.
  intros Hn. unfold round_div. split.
  - destruct (Z.ltb_spec (2 * (n mod 3)) 3);
      [|destruct (Z.ltb_spec 3 (2 * (n mod 3)))];
      Z.div_mod_to_equations; lia.
  - destruct (Z.ltb_spec (2 * ((2 * n) mod 3)) 3);
      [|destruct (Z.ltb_spec 3 (2 * ((2 * n) mod 3)))];
      Z.div_mod_to_equations; lia.
Qed.

Lemma round_div_thirds_bounds (n : Z) :
  0 <= n ->
  0 <= round_div n 3 <= round_div (2 * n) 3 /\ round_div (2 * n) 3 <= n.
Proof.
  intros Hn. destruct (round_div_thirds n Hn) as [-> ->].
  Z.div_mod_to_equations. lia.
Qed.

End Bands.

Section BrightestFacts.

Context {cv : OpenCV}.

(** The side returned is the first of largest sample in the order top,
    left, bottom, right. *)
Lemma brightest_side_first_max (image : Image) (filename extension : string) :
  exists (l1 : dict Q) (k : string) (v : Q) (l2 : dict Q),
    samples_of (chunks_of image) = l1 ++ (k, v) :: l2 /\
    detect_brightest_side image filename extension = dict_get rotation_map k /\
    (forall k' v', In (k', v') l1 -> (v' < v)%Q) /\
    (forall k' v', In (k', v') l2 -> (v' <= v)%Q).
Proof.
  unfold detect_brightest_side. rewrite samples_of_chunks_eq.
  destruct (max_scan_first_max
              [ ("left", sample_of (band_left image));
                ("bottom", sample_of (band_bottom image));
                ("right", sample_of (band_right image)) ]
              "top" (sample_of (band_top image)))
    as (l1 & k & v & l2 & Hsplit & Hk & H1 & H2).
  exists l1, k, v, l2. unfold max_key. rewrite Hk. auto.
Qed.

End BrightestFacts.

(** C4 (amended): with [h] rows and [w] columns, the four bands are the
    slices top = rows [[0, round(h/3))], left = columns [[0, round(w/3))],
    bottom = rows [[round(2h/3), h)], right = columns [[round(2w/3), w)],
    each over the full other dimension, where [round] is to the nearest
    integer: [round(h/3) = (h+1) div 3] and [round(2h/3) = (2h+1) div 3].
    Each band is resized to 5x5, blurred with a 5x5 kernel and reduced to
    the first component of its mean; the result is the table value
    (top 0, left 90, bottom 180, right 270) of a band of largest sample. *)
Theorem brightest_side_bands {cv : OpenCV} (image : Image)
    (filename extension : string) :
  let h := rows image in
  let w := cols image in
  let ht := Z.to_nat (round_div (Z.of_nat h) 3) in
  let hb := Z.to_nat (round_div (2 * Z.of_nat h) 3) in
  let wl := Z.to_nat (round_div (Z.of_nat w) 3) in
  let wr := Z.to_nat (round_div (2 * Z.of_nat w) 3) in
  (Z.of_nat ht = (Z.of_nat h + 1) / 3 /\ Z.of_nat hb = (2 * Z.of_nat h + 1) / 3 /\
   Z.of_nat wl = (Z.of_nat w + 1) / 3 /\ Z.of_nat wr = (2 * Z.of_nat w + 1) / 3) /\
  exists top left bottom right : Image,
    chunks_of image =
      [("top", top); ("left", left); ("bottom", bottom); ("right", right)] /\
    (rows top = ht /\ cols top = w /\
     forall i j, (i < ht)%nat -> (j < w)%nat ->
                 pixel_at top i j = pixel_at image i j) /\
    (rows left = h /\ cols left = wl /\
     forall i j, (i < h)%nat -> (j < wl)%nat ->
                 pixel_at left i j = pixel_at image i j) /\
    (rows bottom = (h - hb)%nat /\ cols bottom = w /\
     forall i j, (i < h - hb)%nat -> (j < w)%nat ->
                 pixel_at bottom i j = pixel_at image (hb + i) j) /\
    (rows right = h /\ cols right = (w - wr)%nat /\
     forall i j, (i < h)%nat -> (j < w - wr)%nat ->
                 pixel_at right i j = pixel_at image i (wr + j)) /\
    (forall chunk,
       sample_of chunk =
       fst (fst (fst (mean (GaussianBlur (resize_cubic chunk (5, 5)) (5, 5)
                              BORDER_DEFAULT))))) /\
    rotation_map = [("top", 0); ("left", 90); ("bottom", 180); ("right", 270)] /\
    exists (k : string) (v : Q),
      let samples :=
        [("top", sample_of top); ("left", sample_of left);
         ("bottom", sample_of bottom); ("right", sample_of right)] in
      In (k, v) samples /\
      (forall k' v', In (k', v') samples -> (v' <= v)%Q) /\
      detect_brightest_side image filename extension = dict_get rotation_map k.
Proof.
  intros h w ht hb wl wr.
  destruct (round_div_thirds (Z.of_nat h) (Nat2Z.is_nonneg h)) as [Eht Ehb].
  destruct (round_div_thirds (Z.of_nat w) (Nat2Z.is_nonneg w)) as [Ewl Ewr].
  pose proof (round_div_thirds_bounds (Z.of_nat h) (Nat2Z.is_nonneg h)) as Bh.
  pose proof (round_div_thirds_bounds (Z.of_nat w) (Nat2Z.is_nonneg w)) as Bw.
  subst ht hb wl wr h w. split.
  { rewrite !Z2Nat.id by lia. auto. }
  exists (band_top image), (band_left image), (band_bottom image),
         (band_right image).
  split; [apply chunks_of_eq|].
  assert (Hz : Z.to_nat 0 = 0%nat) by reflexivity.
  split; [|split; [|split; [|split]]].
  - unfold band_top. split; [|split].
    + unfold crop, slice_len. cbn [rows]. lia.
    + unfold crop, slice_len. cbn [cols]. lia.
    + intros i j Hi Hj. rewrite crop_pixel_at by lia. reflexivity.
  - unfold band_left. split; [|split].
    + unfold crop, slice_len. cbn [rows]. lia.
    + unfold crop, slice_len. cbn [cols]. lia.
    + intros i j Hi Hj. rewrite crop_pixel_at by lia. reflexivity.
  - unfold band_bottom. split; [|split].
    + unfold crop, slice_len. cbn [rows]. lia.
    + unfold crop, slice_len. cbn [cols]. lia.
    + intros i j Hi Hj. rewrite crop_pixel_at by lia. reflexivity.
  - unfold band_right. split; [|split].
    + unfold crop, slice_len. cbn [rows]. lia.
    + unfold crop, slice_len. cbn [cols]. lia.
    + intros i j Hi Hj. rewrite crop_pixel_at by lia. reflexivity.
  - split.
    { intros chunk. unfold sample_of.
      destruct (mean _) as [[[m0 m1] m2] m3]. reflexivity. }
    split; [reflexivity|].
    destruct (brightest_side_first_max image filename extension)
      as (l1 & k & v & l2 & Hsplit & Hres & H1 & H2).
    rewrite samples_of_chunks_eq in Hsplit.
    exists k, v. cbv zeta. rewrite Hsplit. split.
    + apply in_or_app. right. left. reflexivity.
    + split; [|exact Hres].
      intros k' v' Hin. apply in_app_or in Hin.
      destruct Hin as [Hin|[Heq|Hin]].
      * apply Qlt_le_weak. exact (H1 k' v' Hin).
      * injection Heq as <- <-. apply Qle_refl.
      * exact (H2 k' v' Hin).
Qed.

(** C8: the brightest side is a function of the image alone; among the
    samples in the order top, left, bottom, right it takes the first of
    largest value (every earlier band is strictly darker), so when the four
    samples are equal it returns 0. *)
Theorem brightest_side_tie_break {cv : OpenCV} (image : Image)
    (filename extension : string) :
  let samples := samples_of (chunks_of image) in
  map fst samples = ["top"; "left"; "bottom"; "right"] /\
  (forall filename' extension',
     detect_brightest_side image filename' extension' =
     detect_brightest_side image filename extension) /\
  (exists (l1 : dict Q) (k : string) (v : Q) (l2 : dict Q),
     samples = l1 ++ (k, v) :: l2 /\
     detect_brightest_side image filename extension = dict_get rotation_map k /\
     (forall k' v', In (k', v') l1 -> (v' < v)%Q) /\
     (forall k' v', In (k', v') l2 -> (v' <= v)%Q)) /\
  ((forall k v k' v', In (k, v) samples -> In (k', v') samples -> (v == v')%Q) ->
   detect_brightest_side image filename extension = Some 0).
Proof.
  intros samples. split; [reflexivity|]. split; [reflexivity|]. split.
  - apply brightest_side_first_max.
  - intros Hequal.
    destruct (brightest_side_first_max image filename extension)
      as (l1 & k & v & l2 & Hsplit & Hres & H1 & _).
    fold samples in Hsplit. rewrite Hres.
    destruct l1 as [|[k0 v0] l1].
    + unfold samples in Hsplit. rewrite samples_of_chunks_eq in Hsplit.
      injection Hsplit as <- _ _. reflexivity.
    + exfalso. apply (Qlt_irrefl v).
      rewrite <- (Hequal k0 v0 k v) at 1.
      * apply (H1 k0 v0). left. reflexivity.
      * rewrite Hsplit. left. reflexivity.
      * rewrite Hsplit. apply in_or_app. right. left. reflexivity.
Qed.

(** * Concrete runs *)

Section Runs.

Import Standin.

(** C2 on the picture with the marker in the bottom-right corner: the
    profile-face cascade finds nothing at half size (4 calls) and finds
    the marker at full size after two quarter turns (3 calls); the answer
    is 180 and no other cascade is tried. *)
Lemma try_detect_profile_scale_order_witness :
  exists log : list (@Event cornered_cv),
    @try_detect cornered_cv files ["whatsup"; "cornered.png"] true =
      (Some (PyInt 180), log) /\
    length (detect_calls log) = 7%nat /\
    map (@call_cascade cornered_cv) (detect_calls log) =
      repeat "/usr/share/opencv4/haarcascades/haarcascade_profileface.xml" 7.
Proof.
  pose proof (proj2 (proj2 (proj2 (proj2
    (@try_detect_profile_scale_order cornered_cv files
       ["whatsup"; "cornered.png"] true))))) as H.
  cbv zeta in H.
  specialize (H 1%nat ("haarcascade_profileface.xml", 1) 2%nat eq_refl).
  rewrite H.
  - eexists. split; [reflexivity|]. split; vm_compute; reflexivity.
  - vm_compute. reflexivity.
  - intros [|m] c' Hm Hc'; [|lia].
    injection Hc' as <-. vm_compute. reflexivity.
Defined.

(** C3 as stated does not hold: on the striped picture nothing is
    detected and [try_detect] answers 180, the brightest side of the
    equalized grayscale copy, whereas the brightest side of the picture as
    read (blue on top, first channel) is 0. *)
Lemma fallback_on_original_counterexample :
  let argv := ["whatsup"; "stripes.png"] in
  @no_detection stripes_cv files (@load_image stripes_cv files "stripes.png") true /\
  chans (@imread stripes_cv (@path_abspath files "stripes.png")) = 3%nat /\
  chans (@load_image stripes_cv files "stripes.png") = 1%nat /\
  fst (@try_detect stripes_cv files argv true) = Some (PyInt 180) /\
  option_map PyInt
    (@detect_brightest_side stripes_cv
       (@imread stripes_cv (@path_abspath files "stripes.png"))
       "stripes.png" "") = Some (PyInt 0) /\
  fst (@try_detect stripes_cv files argv true) <>
  option_map PyInt
    (@detect_brightest_side stripes_cv
       (@imread stripes_cv (@path_abspath files "stripes.png"))
       "stripes.png" "").
Proof.
  cbv zeta. split; [intros c j _ _; reflexivity|].
  split; [reflexivity|]. split; [reflexivity|].
  split; [vm_compute; reflexivity|]. split; [vm_compute; reflexivity|].
  vm_compute. discriminate.
Qed.

(** C3 (amended) on the striped picture. *)
Lemma fallback_uses_detection_image_witness :
  @no_detection stripes_cv files (@load_image stripes_cv files "stripes.png") true /\
  fst (@try_detect stripes_cv files ["whatsup"; "stripes.png"] true) =
  option_map PyInt
    (@detect_brightest_side stripes_cv
       (equalize (to_gray (scale_abs stripes (125 # 100)%Q 0%Q)))
       "stripes.png" "").
Proof.
  assert (H : @no_detection stripes_cv files
                (@load_image stripes_cv files "stripes.png") true)
    by (intros c j _ _; reflexivity).
  split; [exact H|].
  exact (@fallback_uses_detection_image stripes_cv files
           ["whatsup"; "stripes.png"] true H).
Defined.

(** C4 as stated does not hold.  Of 4 rows the top band of the code
    holds row 0 only, although row 1 lies in [[0, 4/3)].  Of 5 rows the top
    band holds 2 rows, although the integer quotient 5 div 3 is 1, and the
    bottom band holds the 2 rows 3 and 4, although row 3 lies below
    [2 * 5 / 3]. *)
Lemma band_bounds_counterexample :
  option_map rows (dict_get (chunks_of flat4) "top") = Some 1%nat /\
  in_top_band_spec 4 3 1 = true /\
  option_map rows (dict_get (chunks_of flat5) "top") = Some 2%nat /\
  5 / 3 = 1 /\
  option_map rows (dict_get (chunks_of flat5) "bottom") = Some 2%nat /\
  in_bottom_band_spec 5 3 3 = false.
Proof. vm_compute. repeat split; reflexivity. Qed.


(** C6 on the picture with the marker in the top-left corner, turned
    once beforehand: the sweep succeeds at offset 3, and (3 + 1) mod 4 = 0
    is what the unturned picture needs. *)
Lemma prerotation_composes_mod_4_witness :
  wf_image dot /\
  fst (@detect_faces marked_cv (rotate_n 1 dot) "cascade" "dot" ".png" true) =
    Some (PyInt (Z.of_nat 3 * 90)) /\
  fires (@attempt marked_cv "cascade" dot true ((3 + 1) mod 4)) = true /\
  fst (@detect_faces marked_cv dot "cascade" "dot" ".png" true) =
    Some (PyInt (Z.of_nat ((3 + 1) mod 4) * 90)).
Proof.
  assert (Hwf : wf_image dot).
  { split; [reflexivity|]. repeat constructor. }
  assert (H : fst (@detect_faces marked_cv (rotate_n 1 dot) "cascade" "dot"
                     ".png" true) = Some (PyInt (Z.of_nat 3 * 90)))
    by reflexivity.
  destruct (@prerotation_composes_mod_4 marked_cv files dot "cascade" "dot"
              ".png" true 1 3 Hwf H) as (_ & _ & Hfire & Honly).
  split; [exact Hwf|]. split; [exact H|]. split; [exact Hfire|].
  apply Honly. intros [|[|[|[|i]]]] Hi Hne; try reflexivity; try lia.
  exfalso. apply Hne. reflexivity.
Defined.

(** C9 on the marked picture: the first detector call succeeds, the
    answer is 0 although the brightest side of that picture is the
    bottom (180). *)
Lemma offset_zero_is_a_result_witness :
  @path_isfile files "marked.png" = true /\
  fires (@attempt marked_cv
           (@candidate_cascade marked_cv files ("haarcascade_profileface.xml", 2))
           (@scaled marked_cv (@load_image marked_cv files "marked.png") 2)
           true 0) = true /\
  fst (@try_detect marked_cv files ["whatsup"; "marked.png"] true) =
    Some (PyInt 0) /\
  @detect_brightest_side marked_cv (@load_image marked_cv files "marked.png")
    "marked.png" "" = Some 180.
Proof.
  assert (Hfile : @path_isfile files "marked.png" = true) by reflexivity.
  assert (Hfire : fires (@attempt marked_cv
            (@candidate_cascade marked_cv files ("haarcascade_profileface.xml", 2))
            (@scaled marked_cv (@load_image marked_cv files "marked.png") 2)
            true 0) = true) by (vm_compute; reflexivity).
  split; [exact Hfile|]. split; [exact Hfire|]. split.
  - destruct (@offset_zero_is_a_result marked_cv files "whatsup" "marked.png"
                0 ("haarcascade_profileface.xml", 2) Hfile eq_refl Hfire)
      as (_ & _ & _ & _ & Htry & _).
    + intros m c' Hm. lia.
    + rewrite Htry. reflexivity.
  - vm_compute. reflexivity.
Defined.


End Runs.

(** * Further properties of the embedded code *)

(** ** Arrays: quarter turns and slices *)

(** Rewrite the shape of turned arrays to the shape of the array. *)
Ltac turned := repeat (rewrite rows_rotate || rewrite cols_rotate).

Section Arrays.

Lemma tabulate_rows_length {A : Type} (h w : nat) (f : nat -> nat -> A) :
  Forall (fun r => length r = w) (tabulate h w f).
Proof.
  unfold tabulate. apply Forall_forall. intros r Hr.
  apply in_map_iff in Hr. destruct Hr as (i & <- & _).
  rewrite length_map, length_seq. reflexivity.
Qed.

Lemma rotate_wf (image : Image) : wf_image (rotate image).
Proof.
  split; cbn [rotate data rows cols].
  - apply tabulate_length.
  - apply tabulate_rows_length.
Qed.

(** Two well-formed arrays of the same shape with the same pixels are the
    same array. *)
Lemma image_ext (a b : Image) :
  wf_image a -> wf_image b ->
  rows a = rows b -> cols a = cols b -> chans a = chans b ->
  (forall i j, (i < rows a)%nat -> (j < cols a)%nat ->
               pixel_at a i j = pixel_at b i j) ->
  a = b.
Proof.
  intros Ha Hb Hr Hc Hch Hpix.
  pose proof (data_tabulate a Ha) as Da. pose proof (data_tabulate b Hb) as Db.
  destruct a as [ra ca cha da], b as [rb cb chb db].
  cbn [rows cols chans data] in *. subst rb cb chb. f_equal.
  rewrite Da, Db. apply tabulate_ext. exact Hpix.
Qed.

Lemma py_slice_length {A : Type} (a b : Z) (l : list A) :
  length (py_slice a b l) = slice_len a b (length l).
Proof.
  unfold py_slice, slice_len. rewrite length_firstn, length_skipn. lia.
Qed.

Lemma py_slice_incl {A : Type} (a b : Z) (l : list A) (x : A) :
  In x (py_slice a b l) -> In x l.
Proof.
  unfold py_slice. intros H.
  rewrite <- (firstn_skipn (Z.to_nat a) l). apply in_or_app. right.
  rewrite <- (firstn_skipn (Z.to_nat b - Z.to_nat a) (skipn (Z.to_nat a) l)).
  apply in_or_app. left. exact H.
Qed.

Lemma crop_wf (image : Image) (r0 r1 c0 c1 : Z) :
  wf_image image -> wf_image (crop image r0 r1 c0 c1).
Proof.
  intros [Hrows Hcols]. split; cbn [crop data rows cols].
  - rewrite length_map, py_slice_length, Hrows. reflexivity.
  - apply Forall_forall. intros r Hr. apply in_map_iff in Hr.
    destruct Hr as (r' & <- & Hr'). apply py_slice_incl in Hr'.
    rewrite Forall_forall in Hcols.
    rewrite py_slice_length, (Hcols r' Hr'). reflexivity.
Qed.

Lemma rotate_twice_pixel_at (image : Image) (i j : nat) :
  (i < rows image)%nat -> (j < cols image)%nat ->
  pixel_at (rotate (rotate image)) i j =
  pixel_at image (rows image - 1 - i) (cols image - 1 - j).
Proof.
  intros Hi Hj.
  rewrite rotate_pixel_at by (turned; lia). turned.
  rewrite rotate_pixel_at by (turned; lia). reflexivity.
Qed.

End Arrays.

(** X1: a quarter turn of any array is a well-formed array of the
    transposed shape and the same number of elements; on a well-formed
    array two quarter turns put pixel [(i, j)] at
    [(rows - 1 - i, cols - 1 - j)] and four quarter turns give the array
    back, so a fifth attempt of [detect_faces] would look at the first
    image again. *)
Theorem quarter_turns_cycle (image : Image) :
  wf_image image ->
  wf_image (rotate image) /\
  shape (rotate image) = (snd (shape image), fst (shape image)) /\
  size (rotate image) = size image /\
  (forall i j, (i < rows image)%nat -> (j < cols image)%nat ->
     pixel_at (rotate_n 2 image) i j =
     pixel_at image (rows image - 1 - i) (cols image - 1 - j)) /\
  rotate (rotate_n 3 image) = image.
Proof.
  intros Hwf. split; [apply rotate_wf|]. split; [reflexivity|].
  split; [apply size_rotate|]. split.
  - intros i j Hi Hj. cbn [rotate_n]. apply rotate_twice_pixel_at; assumption.
  - rewrite <- rotate_n_succ. apply rotate_n_four. exact Hwf.
Qed.

(** X2: a slice [image[r0:r1, c0:c1]] of a well-formed array is a
    well-formed array whose shape is the clipped extent of the bounds; it
    has no rows when [r1 <= r0] or when [r0] is past the last row, and
    bounds past the end are clipped to the array. *)
Theorem crop_clips_to_the_array (image : Image) (r0 r1 c0 c1 : Z) :
  wf_image image ->
  0 <= r0 -> 0 <= r1 -> 0 <= c0 -> 0 <= c1 ->
  wf_image (crop image r0 r1 c0 c1) /\
  (rows (crop image r0 r1 c0 c1) <= rows image)%nat /\
  (cols (crop image r0 r1 c0 c1) <= cols image)%nat /\
  (r1 <= r0 \/ Z.of_nat (rows image) <= r0 ->
   data (crop image r0 r1 c0 c1) = []) /\
  (r0 <= r1 <= Z.of_nat (rows image) ->
   Z.of_nat (rows (crop image r0 r1 c0 c1)) = r1 - r0) /\
  (Z.of_nat (rows image) <= r1 ->
   crop image r0 r1 c0 c1 = crop image r0 (Z.of_nat (rows image)) c0 c1).
Proof.
  intros Hwf Hr0 Hr1 Hc0 Hc1.
  pose proof (crop_wf image r0 r1 c0 c1 Hwf) as Hcrop.
  split; [exact Hcrop|]. cbn [crop rows cols]. unfold slice_len.
  split; [lia|]. split; [lia|]. split; [|split].
  - intros Hempty. destruct Hcrop as [Hlen _].
    cbn [crop rows data] in Hlen. unfold slice_len in Hlen.
    apply length_zero_iff_nil. cbn [crop data]. rewrite Hlen. lia.
  - intros Hin. lia.
  - intros Hpast. unfold crop, slice_len. f_equal.
    + rewrite Nat2Z.id. lia.
    + f_equal. unfold py_slice. destruct Hwf as [Hlen _].
      rewrite Nat2Z.id.
      rewrite !firstn_all2; try reflexivity; rewrite length_skipn; lia.
Qed.

(** ** The bands under a quarter turn *)

Section BandGeometry.

Lemma thirds_sum (n : Z) :
  0 <= n -> round_div n 3 + round_div (2 * n) 3 = n.
Proof.
  intros Hn. destruct (round_div_thirds n Hn) as [-> ->].
  Z.div_mod_to_equations. lia.
Qed.

Lemma band_rows_cols (image : Image) :
  let h := rows image in
  let w := cols image in
  (rows (band_top image) = Z.to_nat (round_div (Z.of_nat h) 3) /\
   cols (band_top image) = w) /\
  (rows (band_left image) = h /\
   cols (band_left image) = Z.to_nat (round_div (Z.of_nat w) 3)) /\
  (rows (band_bottom image) = Z.to_nat (round_div (Z.of_nat h) 3) /\
   cols (band_bottom image) = w) /\
  (rows (band_right image) = h /\
   cols (band_right image) = Z.to_nat (round_div (Z.of_nat w) 3)).
Proof.
  intros h w. subst h w.
  pose proof (round_div_thirds_bounds (Z.of_nat (rows image))
                (Nat2Z.is_nonneg _)) as Bh.
  pose proof (round_div_thirds_bounds (Z.of_nat (cols image))
                (Nat2Z.is_nonneg _)) as Bw.
  pose proof (thirds_sum (Z.of_nat (rows image)) (Nat2Z.is_nonneg _)) as Sh.
  pose proof (thirds_sum (Z.of_nat (cols image)) (Nat2Z.is_nonneg _)) as Sw.
  unfold band_top, band_left, band_bottom, band_right, crop, slice_len.
  cbn [rows cols]. repeat split; lia.
Qed.

End BandGeometry.

(** X3: the rounding of the slice bounds makes opposite bands equally
    large: top and bottom both have [(h + 1) div 3] rows, left and right
    both have [(w + 1) div 3] columns; top and bottom share no row; and
    the top and bottom bands are empty exactly when the image has at most
    one row. *)
Theorem opposite_bands_have_equal_size (image : Image) :
  rows (band_top image) = rows (band_bottom image) /\
  cols (band_left image) = cols (band_right image) /\
  Z.of_nat (rows (band_top image)) = (Z.of_nat (rows image) + 1) / 3 /\
  Z.of_nat (cols (band_left image)) = (Z.of_nat (cols image) + 1) / 3 /\
  round_div (Z.of_nat (rows image)) 3 <= round_div (2 * Z.of_nat (rows image)) 3 /\
  (rows (band_top image) + rows (band_bottom image) <= rows image)%nat /\
  (rows (band_top image) = 0%nat <-> (rows image <= 1)%nat).
Proof.
  destruct (band_rows_cols image)
    as ((Ht & _) & (_ & Hl) & (Hb & _) & (_ & Hr)).
  cbv zeta in Ht, Hl, Hb, Hr.
  destruct (round_div_thirds (Z.of_nat (rows image)) (Nat2Z.is_nonneg _))
    as [Eh _].
  destruct (round_div_thirds (Z.of_nat (cols image)) (Nat2Z.is_nonneg _))
    as [Ew _].
  pose proof (round_div_thirds_bounds (Z.of_nat (rows image))
                (Nat2Z.is_nonneg _)) as Bh.
  pose proof (round_div_thirds_bounds (Z.of_nat (cols image))
                (Nat2Z.is_nonneg _)) as Bw.
  pose proof (thirds_sum (Z.of_nat (rows image)) (Nat2Z.is_nonneg _)) as Sh.
  rewrite Ht, Hb, Hl, Hr. rewrite !Z2Nat.id by lia.
  split; [reflexivity|]. split; [reflexivity|].
  split; [exact Eh|]. split; [exact Ew|]. split; [lia|]. split; [lia|].
  rewrite Eh. split; intros H.
  - assert ((Z.of_nat (rows image) + 1) / 3 <= 0) by lia.
    Z.div_mod_to_equations. lia.
  - assert ((Z.of_nat (rows image) + 1) / 3 = 0)
      by (apply Z.div_small; lia).
    lia.
Qed.

(** X4: a clockwise quarter turn carries the bands round: the top band
    of the turned image is the turned left band, its right band the turned
    top band, its bottom band the turned right band and its left band the
    turned bottom band.  The side the table sends to 90 degrees is the one
    a quarter turn brings to the top. *)
Theorem quarter_turn_permutes_bands (image : Image) :
  band_top (rotate image) = rotate (band_left image) /\
  band_right (rotate image) = rotate (band_top image) /\
  band_bottom (rotate image) = rotate (band_right image) /\
  band_left (rotate image) = rotate (band_bottom image).
Proof.
  pose proof (round_div_thirds_bounds (Z.of_nat (rows image))
                (Nat2Z.is_nonneg _)) as Bh.
  pose proof (round_div_thirds_bounds (Z.of_nat (cols image))
                (Nat2Z.is_nonneg _)) as Bw.
  pose proof (thirds_sum (Z.of_nat (rows image)) (Nat2Z.is_nonneg _)) as Sh.
  pose proof (thirds_sum (Z.of_nat (cols image)) (Nat2Z.is_nonneg _)) as Sw.
  destruct (band_rows_cols image)
    as ((Htr & Htc) & (Hlr & Hlc) & (Hbr & Hbc) & (Hrr & Hrc)).
  destruct (band_rows_cols (rotate image))
    as ((Htr' & Htc') & (Hlr' & Hlc') & (Hbr' & Hbc') & (Hrr' & Hrc')).
  cbv zeta in *. rewrite rows_rotate, cols_rotate in *.
  repeat split.
  - apply image_ext;
      [apply crop_wf, rotate_wf | apply rotate_wf | turned; congruence
      | turned; congruence | reflexivity |].
    intros i j Hi Hj. rewrite Htr' in Hi. rewrite Htc' in Hj.
    unfold band_top at 1. turned.
    rewrite crop_pixel_at by lia.
    rewrite rotate_pixel_at by (cbn [Z.to_nat Nat.add]; lia).
    rewrite rotate_pixel_at by lia. rewrite Hlr.
    unfold band_left. rewrite crop_pixel_at by lia. reflexivity.
  - apply image_ext;
      [apply crop_wf, rotate_wf | apply rotate_wf | turned; congruence
      | turned; congruence | reflexivity |].
    intros i j Hi Hj. rewrite Hrr' in Hi. rewrite Hrc' in Hj.
    unfold band_right at 1. turned.
    rewrite crop_pixel_at by lia.
    rewrite rotate_pixel_at by (cbn [Z.to_nat Nat.add]; lia).
    rewrite rotate_pixel_at by lia. rewrite Htr.
    unfold band_top. rewrite crop_pixel_at by lia.
    cbn [Z.to_nat Nat.add]. f_equal. lia.
  - apply image_ext;
      [apply crop_wf, rotate_wf | apply rotate_wf | turned; congruence
      | turned; congruence | reflexivity |].
    intros i j Hi Hj. rewrite Hbr' in Hi. rewrite Hbc' in Hj.
    unfold band_bottom at 1. turned.
    rewrite crop_pixel_at by lia.
    rewrite rotate_pixel_at by (cbn [Z.to_nat Nat.add]; lia).
    rewrite rotate_pixel_at by lia. rewrite Hrr.
    unfold band_right. rewrite crop_pixel_at by lia. reflexivity.
  - apply image_ext;
      [apply crop_wf, rotate_wf | apply rotate_wf | turned; congruence
      | turned; congruence | reflexivity |].
    intros i j Hi Hj. rewrite Hlr' in Hi. rewrite Hlc' in Hj.
    unfold band_left at 1. turned.
    rewrite crop_pixel_at by lia.
    rewrite rotate_pixel_at by (cbn [Z.to_nat Nat.add]; lia).
    rewrite rotate_pixel_at by lia. rewrite Hbr.
    unfold band_bottom. rewrite crop_pixel_at by lia.
    cbn [Z.to_nat Nat.add]. f_equal. lia.
Qed.

(** ** The rotation sweep on a turned image *)

Section TurnedSweep.

Context {cv : OpenCV} {os : OS}.

Lemma find_seq_intro (p : nat -> bool) (n j : nat) :
  (j < n)%nat -> p j = true -> (forall i, (i < j)%nat -> p i = false) ->
  find p (seq 0 n) = Some j.
Proof.
  intros Hj Hp Hfirst. destruct (find p (seq 0 n)) as [j'|] eqn:E.
  - apply find_seq_first in E. destruct E as (Hj' & Hp' & Hfirst').
    destruct (Nat.lt_trichotomy j' j) as [Hlt|[->|Hgt]]; [|reflexivity|].
    + rewrite (Hfirst j' Hlt) in Hp'. discriminate.
    + rewrite (Hfirst' j Hgt) in Hp. discriminate.
  - rewrite (find_seq_none p n E j Hj) in Hp. discriminate.
Qed.

Lemma attempt_turned cc image biggest (j : nat) :
  attempt cc (rotate image) biggest j = attempt cc image biggest (S j).
Proof. exact (attempt_prerotated cc image biggest 1 j). Qed.

Lemma detect_faces_false image cc filename extension biggest :
  fst (detect_faces image cc filename extension biggest) = Some (PyBool false) <->
  (forall j, (j < 4)%nat -> fires (attempt cc image biggest j) = false).
Proof.
  rewrite detect_faces_eq. split.
  - destruct (rotation_search_spec cc image biggest) eqn:E; [discriminate|].
    intros _. exact (find_seq_none _ _ E).
  - intros H. rewrite (rotation_search_spec_none cc image biggest H).
    reflexivity.
Qed.

End TurnedSweep.

(** X5: if [detect_faces] answers [(j + 1) * 90] on an image, then on
    that image turned once clockwise it answers [j * 90], with one
    detector call fewer: turning the input by a quarter takes 90 degrees
    off a positive answer. *)
Theorem detect_faces_after_quarter_turn {cv : OpenCV} {os : OS}
    (image : Image) (cc : Cascade) (filename extension : string)
    (biggest : bool) (j : nat) :
  fst (detect_faces image cc filename extension biggest) =
    Some (PyInt (Z.of_nat (S j) * 90)) ->
  detect_faces (rotate image) cc filename extension biggest =
    (Some (PyInt (Z.of_nat j * 90)), attempts cc (rotate image) biggest (S j)) /\
  length (snd (detect_faces image cc filename extension biggest)) =
    S (length (snd (detect_faces (rotate image) cc filename extension biggest))).
Proof.
  intros H. apply detect_faces_offset in H. pose proof H as Hfound.
  apply find_seq_first in H. destruct H as (Hlt & Hfire & Hfirst).
  assert (Hturned : rotation_search_spec cc (rotate image) biggest = Some j).
  { apply find_seq_intro; [lia | |].
    - rewrite attempt_turned. exact Hfire.
    - intros i Hi. rewrite attempt_turned. apply Hfirst. lia. }
  rewrite !detect_faces_eq, Hturned, Hfound. cbn [snd].
  rewrite !attempts_length. split; reflexivity.
Qed.

(** X6: on a well-formed image [detect_faces] answers [False] exactly
    when it answers [False] on the image turned once: the four attempts
    look at the same four orientations, in cyclic order. *)
Theorem no_result_survives_quarter_turn {cv : OpenCV} {os : OS}
    (image : Image) (cc : Cascade) (filename extension : string)
    (biggest : bool) :
  wf_image image ->
  (fst (detect_faces image cc filename extension biggest) = Some (PyBool false)
   <->
   fst (detect_faces (rotate image) cc filename extension biggest) =
     Some (PyBool false)).
Proof.
  intros Hwf. rewrite !detect_faces_false. split; intros H j Hj.
  - rewrite attempt_turned.
    rewrite <- (attempt_mod cc image biggest (S j) Hwf).
    apply H. apply Nat.mod_upper_bound. lia.
  - destruct j as [|j].
    + change 0%nat with (4 mod 4)%nat.
      rewrite (attempt_mod cc image biggest 4 Hwf), <- attempt_turned.
      apply H. lia.
    + rewrite <- attempt_turned. apply H. lia.
Qed.

(** X7: every detector call of one [detect_faces] run carries the given
    cascade, the same flags and the same square size bounds
    [int(sqrt(size) / 20)] and [int(sqrt(size) / 2)], computed once from
    the image as given; they are also the bounds of the turned image the
    call looks at, whose number of elements is unchanged.  The lower bound
    never exceeds the upper one; it is 0 exactly below 400 elements and the
    upper one is 0 exactly below 4. *)
Theorem detector_size_bounds {cv : OpenCV} {os : OS}
    (image : Image) (cc : Cascade) (filename extension : string)
    (biggest : bool) (call : DetectCall) :
  In call (detect_calls (snd (detect_faces image cc filename extension biggest))) ->
  let min_length := Z.sqrt (size image) / 20 in
  let max_length := Z.sqrt (size image) / 2 in
  call_cascade call = cc /\
  call_flags call = detect_flags biggest /\
  call_min_size call = (min_length, min_length) /\
  call_max_size call = (max_length, max_length) /\
  size (call_image call) = size image /\
  0 <= min_length <= max_length /\
  (min_length = 0 <-> size image < 400) /\
  (max_length = 0 <-> size image < 4).
Proof.
  intros Hin min_length max_length.
  assert (Hcall : exists j, call = attempt cc image biggest j).
  { rewrite detect_faces_eq in Hin.
    destruct (rotation_search_spec cc image biggest); cbn [snd] in Hin;
      rewrite detect_calls_attempts in Hin; apply in_map_iff in Hin;
      destruct Hin as (j & <- & _); exists j; reflexivity. }
  destruct Hcall as (j & ->). unfold attempt. cbn.
  assert (Hsize : 0 <= size image) by (unfold size; lia).
  pose proof (Z.sqrt_nonneg (size image)) as Hsqrt.
  split; [reflexivity|]. split; [reflexivity|]. split; [reflexivity|].
  split; [reflexivity|]. split; [apply size_rotate_n|].
  subst min_length max_length. split; [|split].
  - split; [apply Z.div_pos; lia|].
    apply Z.div_le_compat_l; lia.
  - rewrite Z.div_small_iff by lia.
    rewrite (Z.sqrt_lt_square (size image) 20) by lia. lia.
  - rewrite Z.div_small_iff by lia.
    rewrite (Z.sqrt_lt_square (size image) 2) by lia. lia.
Qed.

(** ** The detector calls of the whole search *)

Section SearchCalls.

Context {cv : OpenCV} {os : OS}.

Lemma in_detect_calls (log : list Event) (call : DetectCall) :
  In call (detect_calls log) <-> In (EvDetect call) log.
Proof.
  unfold detect_calls. rewrite in_flat_map. split.
  - intros (e & He & Hc). destruct e as [c|o]; cbn in Hc; [|contradiction].
    destruct Hc as [<-|[]]. exact He.
  - intros H. exists (EvDetect call). split; [exact H | left; reflexivity].
Qed.

Lemma sequencer_spec_calls image biggest (cands : list (string * Z)) :
  forall call,
    In call (detect_calls (snd (sequencer_spec image biggest cands))) ->
    exists (c : string * Z) (j : nat),
      In c cands /\ (j < 4)%nat /\
      call = attempt (candidate_cascade c) (scaled image (snd c)) biggest j.
Proof.
  induction cands as [|c cands IH]; intros call Hin; cbn [sequencer_spec] in Hin.
  - destruct Hin.
  - destruct (candidate_search image biggest c) as [j|] eqn:E.
    + cbn [snd] in Hin. unfold candidate_attempts in Hin.
      rewrite detect_calls_attempts in Hin. apply in_map_iff in Hin.
      destruct Hin as (i & <- & Hi). apply in_seq in Hi.
      apply rotation_search_spec_lt in E.
      exists c, i. split; [left; reflexivity|]. split; [lia | reflexivity].
    + destruct (sequencer_spec image biggest cands) as [r log].
      cbn [snd] in Hin, IH. rewrite detect_calls_app in Hin.
      apply in_app_or in Hin. destruct Hin as [Hin|Hin].
      * unfold candidate_attempts in Hin.
        rewrite detect_calls_attempts in Hin. apply in_map_iff in Hin.
        destruct Hin as (i & <- & Hi). apply in_seq in Hi.
        exists c, i. split; [left; reflexivity|]. split; [lia | reflexivity].
      * destruct (IH call Hin) as (c' & j & Hc' & Hj & Heq).
        exists c', j. split; [right; exact Hc'|]. split; assumption.
Qed.

Lemma try_detect_log (argv : list string) (biggest : bool) :
  snd (try_detect argv biggest) =
  snd (sequencer_spec (load_image (last argv "")) biggest candidates_spec).
Proof.
  rewrite try_detect_eq. cbv zeta.
  destruct (sequencer_spec _ biggest candidates_spec) as [[j|] log]; reflexivity.
Qed.

(** The calls of [try_detect]: a cascade of the list, the image resized
    at counter 2 or 1, a rotation offset below 4. *)
Lemma try_detect_calls (argv : list string) (biggest : bool) (call : DetectCall) :
  In call (detect_calls (snd (try_detect argv biggest))) ->
  exists (name : string) (s : Z) (j : nat),
    In name CASCADES_TO_USE /\ (s = 2 \/ s = 1) /\ (j < 4)%nat /\
    call = attempt (CascadeClassifier (path_join DATA_DIRECTORY name))
             (scaled (load_image (last argv "")) s) biggest j.
Proof.
  rewrite try_detect_log. intros Hin.
  destruct (sequencer_spec_calls _ _ _ _ Hin) as ([name s] & j & Hc & Hj & ->).
  exists name, s, j. cbn [fst snd candidate_cascade].
  cbn in Hc.
  repeat (destruct Hc as [Hc|Hc];
          [injection Hc as <- <-; cbn; intuition auto|]).
  destruct Hc.
Qed.

End SearchCalls.

(** X8: [try_detect] calls the detector only with a cascade loaded from
    [DATA_DIRECTORY] joined with one of the four names of
    [CASCADES_TO_USE], only on a clockwise rotation (fewer than 4 quarter
    turns) of the preprocessed image resized at counter 2 or 1, and only
    with the flags its own argument [biggest] selects; the preprocessed
    image is never handed to the detector without going through
    [cv2.resize]. *)
Theorem search_calls_are_candidate_attempts {cv : OpenCV} {os : OS}
    (argv : list string) (biggest : bool) (call : DetectCall) :
  In call (detect_calls (snd (try_detect argv biggest))) ->
  let image := load_image (last argv "") in
  exists (name : string) (s : Z) (j : nat),
    In name CASCADES_TO_USE /\ (s = 2 \/ s = 1) /\ (j < 4)%nat /\
    call_cascade call = CascadeClassifier (path_join DATA_DIRECTORY name) /\
    call_image call =
      rotate_n j
        (resize_cubic image
           (round_div (snd (shape image)) s, round_div (fst (shape image)) s)) /\
    call_flags call = detect_flags biggest.
Proof.
  intros Hin image.
  destruct (try_detect_calls argv biggest call Hin)
    as (name & s & j & Hname & Hs & Hj & ->).
  exists name, s, j. repeat split; assumption.
Qed.

(** X9: the script reaches the detector only when it was given exactly
    one argument naming an existing file, and then every detector call
    carries [CASCADE_DO_CANNY_PRUNING | CASCADE_FIND_BIGGEST_OBJECT]: the
    script always runs [try_detect(True)]. *)
Theorem main_detects_with_biggest_flag {cv : OpenCV} {os : OS}
    (argv : list string) (call : DetectCall) :
  In (EvDetect call) (snd (main argv)) ->
  length argv = 2%nat /\
  path_isfile (last argv "") = true /\
  In call (detect_calls (snd (try_detect argv true))) /\
  call_flags call = Z.lor CASCADE_DO_CANNY_PRUNING CASCADE_FIND_BIGGEST_OBJECT.
Proof.
  unfold main. intros Hin.
  destruct (length argv =? 2)%nat eqn:Hlen; cbn [negb] in Hin.
  - destruct (path_isfile (last argv "")) eqn:Hfile; cbn [negb] in Hin.
    + apply Nat.eqb_eq in Hlen. split; [exact Hlen|]. split; [reflexivity|].
      assert (Hcall : In call (detect_calls (snd (try_detect argv true)))).
      { apply in_detect_calls.
        destruct (try_detect argv true) as [[v|] log]; cbn [snd];
          unfold bind, print, ret in Hin; cbn [snd] in Hin;
          apply in_app_or in Hin; destruct Hin as [Hin|Hin];
          try exact Hin; cbn in Hin;
          repeat (destruct Hin as [Hin|Hin]; [discriminate|]);
          destruct Hin. }
      split; [exact Hcall|].
      destruct (try_detect_calls argv true call Hcall)
        as (name & s & j & _ & _ & _ & ->).
      reflexivity.
    + cbn in Hin. destruct Hin as [Hin|[]]. discriminate.
  - cbn in Hin. destruct Hin as [Hin|[]]. discriminate.
Qed.

(** ** Samples and their maximum *)

Section Samples.

Context {cv : OpenCV}.

Lemma dict_set_fresh {V : Type} (d : dict V) (k : string) (v : V) :
  ~ In k (map fst d) -> dict_set d k v = d ++ [(k, v)].
Proof.
  induction d as [|[k' v'] d IH]; intros Hfresh; cbn [dict_set app];
    [reflexivity|].
  destruct (String.eqb_spec k k') as [->|Hne].
  - exfalso. apply Hfresh. left. reflexivity.
  - rewrite IH; [reflexivity|]. intros Hin. apply Hfresh. right. exact Hin.
Qed.

Lemma dict_get_map_values {V W : Type} (f : V -> W) (d : dict V) (k : string) :
  dict_get (map (fun kv => (fst kv, f (snd kv))) d) k =
  option_map f (dict_get d k).
Proof.
  induction d as [|[k' v'] d IH]; cbn [map dict_get fst snd]; [reflexivity|].
  destruct (String.eqb k k'); [reflexivity | exact IH].
Qed.

Lemma samples_fold (chunks : dict Image) :
  forall acc : dict Q,
    NoDup (map fst acc ++ map fst chunks) ->
    fold_left
      (fun samples '(position, chunk) =>
         dict_set samples position (sample_of chunk))
      chunks acc =
    acc ++ map (fun kv => (fst kv, sample_of (snd kv))) chunks.
Proof.
  induction chunks as [|[k c] chunks IH]; intros acc Hnodup;
    cbn [fold_left map fst snd].
  - rewrite app_nil_r. reflexivity.
  - cbn [map fst] in Hnodup.
    pose proof (NoDup_remove_2 _ _ _ Hnodup) as Hfresh.
    rewrite dict_set_fresh
      by (intros Hin; apply Hfresh; apply in_or_app; left; exact Hin).
    rewrite IH.
    + rewrite <- app_assoc. reflexivity.
    + rewrite map_app, <- app_assoc. exact Hnodup.
Qed.

End Samples.

(** X10: a side whose sample is strictly greater than the other three
    decides the answer, wherever it stands in the order of the
    dictionary: top gives 0, left 90, bottom 180, right 270. *)
Theorem strictly_brightest_side_wins {cv : OpenCV} (image : Image)
    (filename extension : string) :
  let t := sample_of (band_top image) in
  let l := sample_of (band_left image) in
  let b := sample_of (band_bottom image) in
  let r := sample_of (band_right image) in
  ((l < t)%Q /\ (b < t)%Q /\ (r < t)%Q ->
   detect_brightest_side image filename extension = Some 0) /\
  ((t < l)%Q /\ (b < l)%Q /\ (r < l)%Q ->
   detect_brightest_side image filename extension = Some 90) /\
  ((t < b)%Q /\ (l < b)%Q /\ (r < b)%Q ->
   detect_brightest_side image filename extension = Some 180) /\
  ((t < r)%Q /\ (l < r)%Q /\ (b < r)%Q ->
   detect_brightest_side image filename extension = Some 270).
Proof.
  intros t l b r. unfold detect_brightest_side.
  rewrite samples_of_chunks_eq. fold t l b r. cbn [max_key max_scan].
  repeat split; intros (H1 & H2 & H3);
    repeat match goal with
           | |- context [Qle_bool ?x ?y] =>
               let E := fresh "E" in
               destruct (Qle_bool x y) eqn:E; cbn [negb];
               [apply Qle_bool_iff in E
               |assert (~ (x <= y)%Q)
                  by (intros Hle; apply Qle_bool_iff in Hle; congruence);
                clear E]
           end;
    try reflexivity; exfalso; lra.
Qed.

(** X11: the loop that fills [samples] is a map over the entries of
    [chunks]: for any dictionary of chunks (distinct keys) it yields the
    same keys in the same order, each with the sample of its chunk, and a
    key missing from [chunks] is missing from [samples]. *)
Theorem samples_follow_chunks {cv : OpenCV} (chunks : dict Image) :
  NoDup (map fst chunks) ->
  samples_of chunks = map (fun kv => (fst kv, sample_of (snd kv))) chunks /\
  map fst (samples_of chunks) = map fst chunks /\
  (forall k, dict_get (samples_of chunks) k =
             option_map sample_of (dict_get chunks k)).
Proof.
  intros Hnodup.
  assert (H : samples_of chunks =
              map (fun kv => (fst kv, sample_of (snd kv))) chunks)
    by (unfold samples_of; rewrite samples_fold; [reflexivity | exact Hnodup]).
  rewrite H. split; [reflexivity|]. split.
  - rewrite map_map. reflexivity.
  - intros k. apply dict_get_map_values.
Qed.

(** ** The half-size request of the scale sweep *)

Lemma round_div_half (n : Z) :
  0 <= n ->
  n - 1 <= 2 * round_div n 2 <= n + 1 /\
  (round_div n 2 = 0 <-> n <= 1) /\
  (Z.even n = true -> round_div n 2 = n / 2) /\
  (Z.odd n = true -> Z.even (round_div n 2) = true).
Proof.
  intros Hn. unfold round_div.
  pose proof (Z.mod_pos_bound n 2 eq_refl) as Hr.
  pose proof (Z.div_mod n 2 ltac:(lia)) as Hdiv.
  assert (Heven : Z.even n = (n mod 2 =? 0)).
  { transitivity (Z.even (n mod 2 + 2 * (n / 2))); [f_equal; lia|].
    rewrite Z.even_add_mul_2.
    destruct (Z.eqb_spec (n mod 2) 0) as [->|Hne]; [reflexivity|].
    replace (n mod 2) with 1 by lia. reflexivity. }
  rewrite <- Z.negb_even, Heven.
  destruct (Z.ltb_spec (2 * (n mod 2)) 2) as [Hlt|Hge].
  - replace (n mod 2) with 0 in * by lia. cbn [Z.eqb negb].
    repeat split; try lia; discriminate.
  - destruct (Z.ltb_spec 2 (2 * (n mod 2))) as [Hgt|Hle]; [lia|].
    replace (n mod 2) with 1 in * by lia. cbn [Z.eqb negb].
    destruct (Z.even (n / 2)) eqn:Eq.
    + repeat split; try lia; try discriminate. intros _. exact Eq.
    + assert (Hq : n / 2 <> 0) by (intros Hz; rewrite Hz in Eq; discriminate).
      repeat split; try lia; try discriminate.
      intros _. rewrite Z.even_add, Eq. reflexivity.
Qed.

(** X12: at scale counter 2 the size asked of [cv2.resize] is the
    width and the height halved and rounded as Python rounds: within one
    half of the exact half, the even neighbour when the dimension is odd
    (5 gives 2, 7 gives 4), and 0 exactly when the dimension is at most 1,
    so a picture one pixel high is asked to shrink to no rows. *)
Theorem half_size_request {cv : OpenCV} (image : Image) :
  let h := fst (shape image) in
  let w := snd (shape image) in
  scaled image 2 = resize_cubic image (round_div w 2, round_div h 2) /\
  (h - 1 <= 2 * round_div h 2 <= h + 1 /\ w - 1 <= 2 * round_div w 2 <= w + 1) /\
  (round_div h 2 = 0 <-> h <= 1) /\
  (round_div w 2 = 0 <-> w <= 1) /\
  (Z.odd h = true -> Z.even (round_div h 2) = true) /\
  (Z.odd w = true -> Z.even (round_div w 2) = true) /\
  (Z.even h = true -> round_div h 2 = h / 2) /\
  (Z.even w = true -> round_div w 2 = w / 2).
Proof.
  intros h w. subst h w. cbn [shape fst snd].
  destruct (round_div_half (Z.of_nat (rows image)) (Nat2Z.is_nonneg _))
    as (Bh & Zh & Eh & Oh).
  destruct (round_div_half (Z.of_nat (cols image)) (Nat2Z.is_nonneg _))
    as (Bw & Zw & Ew & Ow).
  repeat split; auto; try lia; try (apply Zh); try (apply Zw).
Qed.

(** ** Concrete runs of the further properties *)

Section FurtherRuns.

Import Standin.

Lemma dot_wf : wf_image dot.
Proof. split; [reflexivity|]. repeat constructor. Qed.

Lemma flat4_wf : wf_image flat4.
Proof. split; [reflexivity|]. repeat constructor. Qed.

(** X1 on the picture with the marker in the top-left corner: after two
    quarter turns the marker is in the bottom-right corner. *)
Lemma quarter_turns_cycle_witness :
  wf_image dot /\
  pixel_at (rotate_n 2 dot) 1 1 = [255] /\
  rotate (rotate_n 3 dot) = dot.
Proof.
  split; [exact dot_wf|].
  destruct (quarter_turns_cycle dot dot_wf) as (_ & _ & _ & Hpix & Hback).
  split; [|exact Hback].
  rewrite (Hpix 1%nat 1%nat) by (cbn; lia). reflexivity.
Defined.

(** X2 on the uniform picture of 4 rows: rows 1 and 2, columns 0 and 1;
    a slice starting past the last row is empty. *)
Lemma crop_clips_to_the_array_witness :
  wf_image flat4 /\
  wf_image (crop flat4 1 3 0 2) /\
  Z.of_nat (rows (crop flat4 1 3 0 2)) = 3 - 1 /\
  wf_image (crop flat4 7 9 0 2) /\
  data (crop flat4 7 9 0 2) = [].
Proof.
  split; [exact flat4_wf|].
  destruct (crop_clips_to_the_array flat4 1 3 0 2 flat4_wf)
    as (Hwf & _ & _ & _ & Hrows & _); try lia.
  destruct (crop_clips_to_the_array flat4 7 9 0 2 flat4_wf)
    as (Hwf' & _ & _ & Hempty & _ & _); try lia.
  split; [exact Hwf|]. split; [apply Hrows; cbn; lia|].
  split; [exact Hwf'|]. apply Hempty. right. cbn. lia.
Defined.

(** X5 on the marker picture turned once (answer 270) and turned twice
    (answer 180). *)
Lemma detect_faces_after_quarter_turn_witness :
  fst (@detect_faces marked_cv (rotate_n 1 dot) "cascade" "dot" ".png" true) =
    Some (PyInt (Z.of_nat 3 * 90)) /\
  fst (@detect_faces marked_cv (rotate (rotate_n 1 dot)) "cascade" "dot" ".png"
         true) = Some (PyInt (Z.of_nat 2 * 90)).
Proof.
  assert (H : fst (@detect_faces marked_cv (rotate_n 1 dot) "cascade" "dot"
                     ".png" true) = Some (PyInt (Z.of_nat 3 * 90)))
    by reflexivity.
  split; [exact H|].
  destruct (@detect_faces_after_quarter_turn marked_cv files (rotate_n 1 dot)
              "cascade" "dot" ".png" true 2 H) as (Heq & _).
  rewrite Heq. reflexivity.
Defined.

(** X6 on the uniform picture, where the marker detector never fires. *)
Lemma no_result_survives_quarter_turn_witness :
  wf_image flat4 /\
  fst (@detect_faces marked_cv flat4 "cascade" "flat" ".png" true) =
    Some (PyBool false) /\
  fst (@detect_faces marked_cv (rotate flat4) "cascade" "flat" ".png" true) =
    Some (PyBool false).
Proof.
  split; [exact flat4_wf|].
  assert (H : fst (@detect_faces marked_cv flat4 "cascade" "flat" ".png" true)
              = Some (PyBool false)) by reflexivity.
  split; [exact H|].
  exact (proj1 (@no_result_survives_quarter_turn marked_cv files flat4
                  "cascade" "flat" ".png" true flat4_wf) H).
Defined.

(** X7 on the marker picture of 4 elements: bounds (0, 0) and (1, 1). *)
Lemma detector_size_bounds_witness :
  let call := @attempt marked_cv "cascade" dot true 0 in
  In call (detect_calls
             (snd (@detect_faces marked_cv dot "cascade" "dot" ".png" true))) /\
  call_min_size call = (0, 0) /\
  call_max_size call = (1, 1).
Proof.
  cbv zeta.
  assert (H : In (@attempt marked_cv "cascade" dot true 0)
                (detect_calls
                   (snd (@detect_faces marked_cv dot "cascade" "dot" ".png"
                           true))))
    by (left; reflexivity).
  split; [exact H|].
  destruct (@detector_size_bounds marked_cv files dot "cascade" "dot" ".png"
              true _ H) as (_ & _ & Hmin & Hmax & _).
  rewrite Hmin, Hmax. split; reflexivity.
Defined.

(** X8 on the marked picture: the only call uses the profile-face
    cascade on the half-size image, unrotated. *)
Lemma search_calls_are_candidate_attempts_witness :
  let call :=
    @attempt marked_cv
      (@candidate_cascade marked_cv files ("haarcascade_profileface.xml", 2))
      (@scaled marked_cv (@load_image marked_cv files "marked.png") 2) true 0 in
  In call
    (detect_calls (snd (@try_detect marked_cv files ["whatsup"; "marked.png"]
                          true))) /\
  call_flags call = 5.
Proof.
  cbv zeta.
  assert (H : In (@attempt marked_cv
                    (@candidate_cascade marked_cv files
                       ("haarcascade_profileface.xml", 2))
                    (@scaled marked_cv
                       (@load_image marked_cv files "marked.png") 2) true 0)
                (detect_calls
                   (snd (@try_detect marked_cv files ["whatsup"; "marked.png"]
                           true))))
    by (vm_compute; left; reflexivity).
  split; [exact H|].
  destruct (@search_calls_are_candidate_attempts marked_cv files
              ["whatsup"; "marked.png"] true _ H)
    as (name & s & j & _ & _ & _ & _ & _ & Hflags).
  rewrite Hflags. reflexivity.
Defined.

(** X9 on the marked picture. *)
Lemma main_detects_with_biggest_flag_witness :
  let call :=
    @attempt marked_cv
      (@candidate_cascade marked_cv files ("haarcascade_profileface.xml", 2))
      (@scaled marked_cv (@load_image marked_cv files "marked.png") 2) true 0 in
  In (EvDetect call) (snd (@main marked_cv files ["whatsup"; "marked.png"])) /\
  call_flags call = Z.lor 1 4.
Proof.
  cbv zeta.
  assert (H : In (EvDetect
                    (@attempt marked_cv
                       (@candidate_cascade marked_cv files
                          ("haarcascade_profileface.xml", 2))
                       (@scaled marked_cv
                          (@load_image marked_cv files "marked.png") 2) true 0))
                (snd (@main marked_cv files ["whatsup"; "marked.png"])))
    by (vm_compute; left; reflexivity).
  split; [exact H|].
  exact (proj2 (proj2 (proj2
           (@main_detects_with_biggest_flag marked_cv files
              ["whatsup"; "marked.png"] _ H)))).
Defined.

(** X10 on the equalized striped picture, whose bottom band is the
    brightest. *)
Lemma strictly_brightest_side_wins_witness :
  @detect_brightest_side stripes_cv
    (@load_image stripes_cv files "stripes.png") "stripes.png" "" = Some 180.
Proof.
  apply (proj1 (proj2 (proj2
           (@strictly_brightest_side_wins stripes_cv
              (@load_image stripes_cv files "stripes.png") "stripes.png" "")))).
  repeat split; vm_compute; reflexivity.
Defined.

(** X11 on the four chunks of the uniform picture. *)
Lemma samples_follow_chunks_witness :
  NoDup (map fst (chunks_of flat4)) /\
  map fst (@samples_of stripes_cv (chunks_of flat4)) =
    ["top"; "left"; "bottom"; "right"] /\
  dict_get (@samples_of stripes_cv (chunks_of flat4)) "middle" = None.
Proof.
  assert (H : NoDup (map fst (chunks_of flat4))).
  { cbn. repeat constructor; cbn; intuition discriminate. }
  split; [exact H|].
  destruct (@samples_follow_chunks stripes_cv (chunks_of flat4) H)
    as (_ & Hkeys & Hget).
  split; [rewrite Hkeys; reflexivity|].
  rewrite Hget. reflexivity.
Defined.

End FurtherRuns.

(** * The script with the failures of [cv2.resize] *)

Section CheckedFacts.

Context {cv : OpenCV} {os : OS}.

Lemma resize_raises_false (image : Image) (dsize : Z * Z) :
  (1 <= rows image)%nat -> (1 <= cols image)%nat ->
  1 <= fst dsize -> 1 <= snd dsize ->
  resize_raises image dsize = false.
Proof.
  intros Hr Hc Hw Hh. unfold resize_raises.
  destruct (Nat.eqb_spec (rows image) 0); [lia|].
  destruct (Nat.eqb_spec (cols image) 0); [lia|].
  destruct (Z.leb_spec (fst dsize) 0); [lia|].
  destruct (Z.leb_spec (snd dsize) 0); [lia|]. reflexivity.
Qed.

Lemma resize_raises_degenerate (image : Image) :
  (rows image <= 1)%nat \/ (cols image <= 1)%nat ->
  resize_raises image
    (round_div (Z.of_nat (cols image)) 2, round_div (Z.of_nat (rows image)) 2)
  = true.
Proof.
  intros Hsmall. unfold resize_raises. cbn [fst snd].
  destruct (round_div_half (Z.of_nat (rows image)) (Nat2Z.is_nonneg _))
    as (_ & Zh & _).
  destruct (round_div_half (Z.of_nat (cols image)) (Nat2Z.is_nonneg _))
    as (_ & Zw & _).
  destruct Hsmall as [H|H].
  - rewrite (proj2 Zh) by lia. rewrite !orb_true_r. reflexivity.
  - rewrite (proj2 Zw) by lia. rewrite !orb_true_r. reflexivity.
Qed.

(** On an image of at least 2 rows and 2 columns no resize of the size
    sweep raises. *)
Lemma sizes_loop_checked_eq image cc filename extension biggest :
  (2 <= rows image)%nat -> (2 <= cols image)%nat ->
  sizes_loop_checked 3 2 1 image cc filename extension biggest =
  (Ok (fst (sizes_loop 3 2 1 image cc filename extension biggest)),
   snd (sizes_loop 3 2 1 image cc filename extension biggest)).
Proof.
  intros Hr Hc.
  destruct (round_div_half (Z.of_nat (rows image)) (Nat2Z.is_nonneg _))
    as (Bh & _).
  destruct (round_div_half (Z.of_nat (cols image)) (Nat2Z.is_nonneg _))
    as (Bw & _).
  cbn [sizes_loop_checked sizes_loop shape].
  change (1 <=? 2) with true. change (1 <=? 2 - 1) with true.
  change (1 <=? 2 - 1 - 1) with false. cbv iota.
  change (2 - 1) with 1. rewrite !round_div_1.
  unfold resize_checked.
  rewrite !resize_raises_false by (cbn [fst snd]; lia).
  unfold bind, ret.
  destruct (detect_faces (resize_cubic image (round_div _ 2, _)) cc filename
              extension biggest) as [[v1|] log1]; cbn [fst snd].
  - destruct (is_not_False v1); cbn [fst snd]; [reflexivity|].
    destruct (detect_faces (resize_cubic image _) cc filename extension biggest)
      as [[v2|] log2]; cbn [fst snd]; [destruct (is_not_False v2)|];
      reflexivity.
  - reflexivity.
Qed.

Lemma cascades_loop_checked_eq image filename extension biggest
    (cascades : list string) :
  (2 <= rows image)%nat -> (2 <= cols image)%nat ->
  cascades_loop_checked cascades image filename extension biggest =
  (Ok (fst (cascades_loop cascades image filename extension biggest)),
   snd (cascades_loop cascades image filename extension biggest)).
Proof.
  intros Hr Hc. induction cascades as [|name cascades IH]; [reflexivity|].
  cbn [cascades_loop_checked cascades_loop].
  change (Z.to_nat (2 - 1 + 1)) with 2%nat.
  rewrite sizes_loop_checked_eq by assumption.
  destruct (sizes_loop 3 2 1 image _ filename extension biggest) as [f log].
  unfold bind. cbn [fst snd]. rewrite IH.
  destruct f; cbn [ret];
    destruct (cascades_loop cascades image filename extension biggest);
    reflexivity.
Qed.

Lemma cascades_loop_checked_raises image filename extension biggest :
  (rows image <= 1)%nat \/ (cols image <= 1)%nat ->
  cascades_loop_checked CASCADES_TO_USE image filename extension biggest =
  (Raised CvError, []).
Proof.
  intros Hsmall. cbn [CASCADES_TO_USE cascades_loop_checked].
  change (Z.to_nat (2 - 1 + 1)) with 2%nat.
  cbn [sizes_loop_checked shape]. change (1 <=? 2) with true. cbv iota.
  unfold resize_checked. rewrite (resize_raises_degenerate image Hsmall).
  reflexivity.
Qed.

Lemma sample_of_checked_eq (chunk : Image) :
  (1 <= rows chunk)%nat -> (1 <= cols chunk)%nat ->
  sample_of_checked chunk = Ok (sample_of chunk).
Proof.
  intros Hr Hc. unfold sample_of_checked, sample_of, resize_checked.
  rewrite resize_raises_false by (cbn [fst snd]; lia).
  destruct (mean _) as [[[m0 m1] m2] m3]. reflexivity.
Qed.

(** On an image of at least 2 rows and 2 columns no band is empty and the
    brightest side is computed without an exception. *)
Lemma detect_brightest_side_checked_eq image filename extension :
  (2 <= rows image)%nat -> (2 <= cols image)%nat ->
  exists r : Z,
    detect_brightest_side_checked image filename extension = Ok r /\
    detect_brightest_side image filename extension = Some r.
Proof.
  intros Hr Hc.
  destruct (band_rows_cols image)
    as ((Htr & Htc) & (Hlr & Hlc) & (Hbr & Hbc) & (Hrr & Hrc)).
  cbv zeta in Htr, Htc, Hlr, Hlc, Hbr, Hbc, Hrr, Hrc.
  destruct (round_div_thirds (Z.of_nat (rows image)) (Nat2Z.is_nonneg _))
    as [Eh _].
  destruct (round_div_thirds (Z.of_nat (cols image)) (Nat2Z.is_nonneg _))
    as [Ew _].
  assert (Hh : (1 <= Z.to_nat (round_div (Z.of_nat (rows image)) 3))%nat)
    by (rewrite Eh; Z.div_mod_to_equations; lia).
  assert (Hw : (1 <= Z.to_nat (round_div (Z.of_nat (cols image)) 3))%nat)
    by (rewrite Ew; Z.div_mod_to_equations; lia).
  destruct (detect_brightest_side_total image filename extension)
    as (r & Hside & _).
  exists r. split; [|exact Hside].
  unfold detect_brightest_side_checked. unfold detect_brightest_side in Hside.
  rewrite chunks_of_eq. cbn [samples_loop_checked].
  rewrite !sample_of_checked_eq by lia.
  rewrite samples_of_chunks_eq in Hside. cbn [dict_set String.eqb].
  change (dict_set [] "top" (sample_of (band_top image)))
    with [("top", sample_of (band_top image))].
  cbv [dict_set String.eqb Ascii.eqb Bool.eqb].
  destruct (max_key _) as [k|]; [|discriminate].
  rewrite Hside. reflexivity.
Qed.

End CheckedFacts.

(** C7 (amended): invoked with one argument naming an existing file
    whose preprocessed image has at least 2 rows and 2 columns, the script
    completes with status 0 and prints exactly one integer, one of 0, 90,
    180, 270, the value of [try_detect]: no [cv2.resize] raises, the
    sequencer reports an offset below 4 or else the brightest side is one
    of the four table values.  On an image of at most one row or one
    column the first [cv2.resize] is asked for an empty size and raises
    before any detector call; the script prints nothing and ends with
    status 1. *)
Theorem main_prints_rotation_unless_degenerate {cv : OpenCV} {os : OS}
    (prog path : string) :
  path_isfile path = true ->
  ((2 <= rows (load_image path))%nat /\ (2 <= cols (load_image path))%nat ->
   exists (r : Z) (log : list Event),
     try_detect_checked [prog; path] true = (Ok (PyInt r), log) /\
     main_checked [prog; path] = (0, log ++ [EvPrint (OutInt r)]) /\
     (forall o, ~ In (EvPrint o) log) /\
     In r [0; 90; 180; 270]) /\
  ((rows (load_image path) <= 1)%nat \/ (cols (load_image path) <= 1)%nat ->
   try_detect_checked [prog; path] true = (Raised CvError, []) /\
   main_checked [prog; path] = (1, [])).
Proof.
  intros Hfile. split.
  - intros (Hr & Hc).
    destruct (try_detect_total [prog; path] true)
      as (r & log & Heq & Hin & Hp & _).
    assert (Hchecked : try_detect_checked [prog; path] true =
                       (Ok (PyInt r), log)).
    { unfold try_detect_checked. unfold try_detect in Heq.
      cbn [last] in Heq |- *.
      rewrite cascades_loop_checked_eq by assumption.
      destruct (cascades_loop CASCADES_TO_USE (load_image path) (path_stem path)
                  (path_suffix path) true) as [f log0].
      unfold bind in Heq |- *. cbn [fst snd].
      destruct f as [v| |]; cbn [ret] in Heq |- *.
      - injection Heq as -> <-. reflexivity.
      - destruct (detect_brightest_side_checked_eq (load_image path)
                    (path_stem path) (path_suffix path) Hr Hc)
          as (r' & Hr' & Hside).
        rewrite Hr'. rewrite Hside in Heq. cbn [option_map] in Heq.
        injection Heq as -> <-. reflexivity.
      - discriminate. }
    exists r, log. repeat split; try assumption.
    unfold main_checked. cbn [length Nat.eqb negb last]. rewrite Hfile.
    cbn [negb]. rewrite Hchecked. unfold bind, print, ret. cbn [py_int].
    rewrite app_nil_r. reflexivity.
  - intros Hsmall.
    assert (Hchecked : try_detect_checked [prog; path] true =
                       (Raised CvError, [])).
    { unfold try_detect_checked. cbn [last].
      rewrite (cascades_loop_checked_raises _ _ _ _ Hsmall). reflexivity. }
    split; [exact Hchecked|].
    unfold main_checked. cbn [length Nat.eqb negb last]. rewrite Hfile.
    cbn [negb]. rewrite Hchecked. reflexivity.
Qed.

Section CheckedRuns.

Import Standin.

(** C7 as stated does not hold: pictures of one pixel and of one row are
    existing, decodable files, yet the script prints nothing and ends with
    status 1, the first resize being asked for zero rows. *)
Lemma one_pixel_picture_counterexample :
  @path_isfile tiny_files "pixel.png" = true /\
  shape (@load_image pixel_cv tiny_files "pixel.png") = (1, 1) /\
  round_div 1 2 = 0 /\
  @main_checked pixel_cv tiny_files ["whatsup"; "pixel.png"] = (1, []) /\
  shape (@load_image strip_cv tiny_files "strip.png") = (1, 4) /\
  @main_checked strip_cv tiny_files ["whatsup"; "strip.png"] = (1, []) /\
  ~ (exists (r : Z) (log : list (@Event pixel_cv)),
       @main_checked pixel_cv tiny_files ["whatsup"; "pixel.png"] =
         (0, log ++ [EvPrint (OutInt r)])).
Proof.
  split; [reflexivity|]. split; [vm_compute; reflexivity|].
  split; [reflexivity|]. split; [vm_compute; reflexivity|].
  split; [vm_compute; reflexivity|]. split; [vm_compute; reflexivity|].
  intros (r & log & H).
  assert (Hrun : @main_checked pixel_cv tiny_files ["whatsup"; "pixel.png"]
                 = (1, [])) by (vm_compute; reflexivity).
  rewrite Hrun in H. discriminate.
Qed.

(** C7 (amended) on the striped picture of 3 rows and 3 columns, and on
    the picture of one pixel. *)
Lemma main_prints_rotation_unless_degenerate_witness :
  @path_isfile files "stripes.png" = true /\
  (exists (r : Z) (log : list (@Event stripes_cv)),
     @main_checked stripes_cv files ["whatsup"; "stripes.png"] =
       (0, log ++ [EvPrint (OutInt r)]) /\
     In r [0; 90; 180; 270]) /\
  @path_isfile tiny_files "pixel.png" = true /\
  @main_checked pixel_cv tiny_files ["whatsup"; "pixel.png"] = (1, []).
Proof.
  assert (H : @path_isfile files "stripes.png" = true) by reflexivity.
  assert (H' : @path_isfile tiny_files "pixel.png" = true) by reflexivity.
  split; [exact H|]. split.
  - destruct (proj1 (@main_prints_rotation_unless_degenerate stripes_cv files
                       "whatsup" "stripes.png" H))
      as (r & log & _ & Hmain & _ & Hin).
    + split; vm_compute; lia.
    + exists r, log. split; assumption.
  - split; [exact H'|].
    apply (proj2 (@main_prints_rotation_unless_degenerate pixel_cv tiny_files
                    "whatsup" "pixel.png" H')).
    left. vm_compute. lia.
Defined.

(** C1 on the 2 by 3 picture with the marker in the top-left corner,
    turned once beforehand: the four attempts look at the marker in the
    top-right, bottom-right, bottom-left and top-left corner, shapes 3 by
    2 and 2 by 3 in turn, and the answer is 270. *)
Lemma detect_faces_rotation_sweep_witness :
  rotate wide = gray_image [ [0; 255]; [0; 0]; [0; 0] ] /\
  @detect_faces marked_cv (rotate wide) "cascade" "wide" ".png" true =
    (Some (PyInt 270),
     map (fun image => EvDetect (@mkDetectCall marked_cv "cascade" image 5
                                   (0, 0) (1, 1)))
       [ gray_image [ [0; 255]; [0; 0]; [0; 0] ];
         gray_image [ [0; 0; 0]; [0; 0; 255] ];
         gray_image [ [0; 0]; [0; 0]; [255; 0] ];
         gray_image [ [255; 0; 0]; [0; 0; 0] ] ]) /\
  pixel_at (call_image (@attempt marked_cv "cascade" (rotate wide) true 1)) 1 2 =
  pixel_at (call_image (@attempt marked_cv "cascade" (rotate wide) true 0)) 0 1.
Proof.
  destruct (@detect_faces_rotation_sweep marked_cv files (rotate wide)
              "cascade" "wide" ".png" true)
    as (_ & Hturn & [(j & Hj & Hfire & _ & Heq) | (Hnone & _)]).
  - split; [reflexivity|]. split.
    + rewrite Heq.
      destruct j as [|[|[|[|j]]]]; try discriminate Hfire; try lia.
      reflexivity.
    + destruct (Hturn 0%nat) as (_ & _ & _ & Hpix).
      exact (Hpix 1%nat 2%nat ltac:(cbn; lia) ltac:(cbn; lia)).
  - specialize (Hnone 3%nat ltac:(lia)). discriminate Hnone.
Defined.

End CheckedRuns.
